(** * force:source:deploy and force:source:deploy:report

    A shallow embedding of the two command classes
    [src/commands/force/source/deploy.ts] and
    [src/commands/force/source/deploy/report.ts].

    The commands are orchestration code over external collaborators (the
    command framework, the component-set builder, the deploy transport,
    the tracking store, the lifecycle bus).  Each collaborator is an
    oracle of a [World]; every call the commands make to one of them is
    recorded, in order, in a log of [Event]s.  The command object's
    mutable fields are a [State] that survives a thrown error, as the
    fields of a JavaScript object do. *)

From stdpp Require Import base option list strings gmap.
From Stdlib Require Import NArith ZArith.

Open Scope string_scope.
Open Scope list_scope.
Open Scope stdpp_scope.

(** ** Values *)

(** An error value travelling through [throw]/[catch].  [isError] is the
    outcome of [error instanceof Error]. *)
Record Err := mkErr {
  isError : bool;
  errName : string;
  errMessage : string;
}.

Inductive RequestStatus :=
| Queued | InProgress | Succeeded | Failed | Canceled | SucceededPartial.

(** The part of a [DeployResult] the commands read. *)
Record DeployResult := mkDeployResult {
  responseId : string;
  status : RequestStatus;
  numberTestsTotal : N;
}.

(** [{ id: deploy.id }] *)
Record DeployAsyncStatus := mkAsync { id : string }.

Record SourceComponent := mkComponent {
  fullName : string;
  typeName : string;
  files : list string;
}.

Definition ComponentSet := list SourceComponent.

Definition toArray (cs : ComponentSet) : list SourceComponent := cs.

(** A file path is represented in a component set when one of its
    components owns the file. *)
Definition hasPath (cs : ComponentSet) (p : string) : bool :=
  existsb (fun c => bool_decide (p ∈ files c)) cs.

(** ** Parsed flags *)

Inductive FlagValue :=
| VBool (b : bool)
| VStr (s : string)
| VArr (l : list string)
| VMinutes (quantity : N).

(** [this.flags]: a JavaScript object from flag names to values. *)
Abbreviation Flags := (gmap string FlagValue).

Definition flag (f : Flags) (name : string) : option FlagValue := f !! name.

(** JavaScript truthiness of [this.flags.name]. *)
Definition truthy (v : option FlagValue) : bool :=
  match v with
  | None => false
  | Some (VBool b) => b
  | Some (VStr s) => negb (String.eqb s "")
  | Some (VArr _) => true
  | Some (VMinutes _) => true
  end.

Definition isSet (f : Flags) (name : string) : bool := truthy (flag f name).

Definition asStr (v : option FlagValue) : option string :=
  match v with Some (VStr s) => Some s | _ => None end.

Definition asArr (v : option FlagValue) : option (list string) :=
  match v with Some (VArr l) => Some l | _ => None end.

(** [getFlag<boolean>(name, false)] *)
Definition getBool (f : Flags) (name : string) : bool := isSet f name.

(** ** Tracking store *)

Inductive Origin := Local | Remote.
Inductive ChangeState := Add | Modify | Delete.

Record Change := mkChange {
  origin : Origin;
  state : ChangeState;
  path : string;
}.

Definition Tracking := list Change.

Definition origin_eqb (a b : Origin) : bool :=
  match a, b with Local, Local | Remote, Remote => true | _, _ => false end.

Definition state_eqb (a b : ChangeState) : bool :=
  match a, b with
  | Add, Add | Modify, Modify | Delete, Delete => true
  | _, _ => false
  end.

(** [tracking.getChanges<string>({ origin, state, format: 'string' })] *)
Definition getChanges (t : Tracking) (o : Origin) (st : option ChangeState)
  : list string :=
  map path
    (List.filter
       (fun c => origin_eqb (origin c) o &&
                 match st with
                 | Some s => state_eqb (state c) s
                 | None => true
                 end) t).

(** ** Requests sent to collaborators *)

Record ManifestArg := mkManifestArg {
  manifestPath : option string;
  manifestDirs : list string;
  destructiveChangesPre : option string;
  destructiveChangesPost : option string;
}.

Record MetadataArg := mkMetadataArg {
  metadataEntries : option (list string);
  metadataDirs : list string;
}.

Record BuildArgs := mkBuildArgs {
  b_apiversion : option string;
  b_sourceapiversion : option string;
  b_sourcepath : option (list string);
  b_manifest : option ManifestArg;
  b_metadata : option MetadataArg;
}.

Record ApiOptions := mkApiOptions {
  purgeOnDelete : bool;
  ignoreWarnings : bool;
  rollbackOnError : bool;
  checkOnly : bool;
  rest : bool;
  testLevel : option string;
  runTests : option (list string);
}.

Inductive FormatterKind :=
| DeployAsyncResultFormatter
| DeployResultFormatter
| DeployReportResultFormatter.

Inductive ProgressKind :=
| DeployProgressBarFormatter
| DeployProgressStatusFormatter (verbose : option bool).

(** ** The log of calls to collaborators *)

Inductive Event :=
| EvTrackingSetup
| EvWarn (key : string)
| EvDebug (msg : string)
| EvLog (key : string)
| EvBuild (args : BuildArgs)
| EvFilterConflicts
| EvGetChanges (o : Origin) (st : option ChangeState)
| EvEmit (name : string)
| EvOn (name : string)
| EvDeploy (cs : ComponentSet) (username : string) (opts : ApiOptions)
| EvUpdateDeployId (i : string)
| EvProgress (k : ProgressKind)
| EvPollStatus (i : string) (timeout : N)
| EvDeployRecentValidation (i : string)
| EvResolveDeployId (jobid : option string)
| EvResolveProject
| EvCreateDeploy (i : string)
| EvReport (i : string)
| EvUpdateTracking
| EvCreateReports
| EvDisplay (k : FormatterKind).

(** ** Results handed back to the framework *)

(** Modelled from the spec: the result formatters are not among the
    sources.  A formatter is built from "either an AsyncDeployHandle or a
    terminal DeployResult" and its [getJson] is the machine-serializable
    representation of what it was built from. *)
Inductive CommandResult :=
| DeployCommandAsyncResult (r : option DeployAsyncStatus)
| DeployCommandResult (r : option DeployResult)
| DeployReportCommandResult (r : option DeployResult).

(** ** The world: what the collaborators answer *)

Record World := mkWorld {
  (* command framework *)
  isJsonOutput : bool;
  SFDX_USE_PROGRESS_BAR : option bool;
  isValidDeployId : string -> bool;
  (* DeployCommand, the base class of both commands *)
  DEFAULT_WAIT_MINUTES : N;
  isRestDeploy : bool;
  getSourceApiVersion : Err + option string;
  getPackageDirs : list string;
  getUsername : string;
  (* resolveOutputDir(coverageFormatters, junit, resultsDir, deployId,
     noThrow): a directory, undefined, or a throw *)
  resolveOutputDir :
    option (list string) -> bool -> option string -> option string -> bool ->
    Err + option string;
  (* maybeCreateRequestedReports(), which reads this.deployResult and
     this.resultsDir, may throw *)
  createReportsOutcome : option DeployResult -> option string -> option Err;
  statusExitCode : bool -> option DeployResult -> Z;
  resolveDeployId : option string -> Err + string;
  report : string -> Err + DeployResult;
  (* tracking *)
  trackingStore : Err + Tracking;
  updateTrackingOutcome : option DeployResult -> option Err;
  (* component-set builder and project *)
  build : BuildArgs -> Err + ComponentSet;
  projectDirs : Err + list string;
  (* deploy transport *)
  submit : ComponentSet -> string -> ApiOptions -> Err + string;
  announcesApiVersion : bool;
  pollStatus : string -> N -> Err + DeployResult;
  recentValidation : string -> Err + DeployResult;
  (* lifecycle bus: a listener of the named event may throw *)
  listenerThrows : string -> option Err;
  (* result formatters: display() of a formatter may throw, depending on
     what the formatter was built from *)
  displayOutcome : CommandResult -> option Err;
}.

(** The same world, with the machine output mode switched. *)
Definition withJsonOutput (b : bool) (w : World) : World :=
  {| isJsonOutput := b;
     SFDX_USE_PROGRESS_BAR := SFDX_USE_PROGRESS_BAR w;
     isValidDeployId := isValidDeployId w;
     DEFAULT_WAIT_MINUTES := DEFAULT_WAIT_MINUTES w;
     isRestDeploy := isRestDeploy w;
     getSourceApiVersion := getSourceApiVersion w;
     getPackageDirs := getPackageDirs w;
     getUsername := getUsername w;
     resolveOutputDir := resolveOutputDir w;
     createReportsOutcome := createReportsOutcome w;
     statusExitCode := statusExitCode w;
     resolveDeployId := resolveDeployId w;
     report := report w;
     trackingStore := trackingStore w;
     updateTrackingOutcome := updateTrackingOutcome w;
     build := build w;
     projectDirs := projectDirs w;
     submit := submit w;
     announcesApiVersion := announcesApiVersion w;
     pollStatus := pollStatus w;
     recentValidation := recentValidation w;
     listenerThrows := listenerThrows w;
     displayOutcome := displayOutcome w |}.

(** ** The command object *)

Record State := mkState {
  tracking : option Tracking;
  isAsync : bool;
  isRest : bool;
  componentSet : option ComponentSet;
  deployResult : option DeployResult;
  asyncDeployResult : option DeployAsyncStatus;
  resultsDir : option string;
  project : option (list string);
  exitCode : Z;
}.

(** Assignments to the fields of [this]. *)
Definition set_tracking (v : option Tracking) (s : State) : State :=
  mkState v (isAsync s) (isRest s) (componentSet s) (deployResult s)
    (asyncDeployResult s) (resultsDir s) (project s) (exitCode s).
Definition set_isAsync (v : bool) (s : State) : State :=
  mkState (tracking s) v (isRest s) (componentSet s) (deployResult s)
    (asyncDeployResult s) (resultsDir s) (project s) (exitCode s).
Definition set_isRest (v : bool) (s : State) : State :=
  mkState (tracking s) (isAsync s) v (componentSet s) (deployResult s)
    (asyncDeployResult s) (resultsDir s) (project s) (exitCode s).
Definition set_componentSet (v : option ComponentSet) (s : State) : State :=
  mkState (tracking s) (isAsync s) (isRest s) v (deployResult s)
    (asyncDeployResult s) (resultsDir s) (project s) (exitCode s).
Definition set_deployResult (v : option DeployResult) (s : State) : State :=
  mkState (tracking s) (isAsync s) (isRest s) (componentSet s) v
    (asyncDeployResult s) (resultsDir s) (project s) (exitCode s).
Definition set_asyncDeployResult (v : option DeployAsyncStatus) (s : State)
  : State :=
  mkState (tracking s) (isAsync s) (isRest s) (componentSet s) (deployResult s)
    v (resultsDir s) (project s) (exitCode s).
Definition set_resultsDir (v : option string) (s : State) : State :=
  mkState (tracking s) (isAsync s) (isRest s) (componentSet s) (deployResult s)
    (asyncDeployResult s) v (project s) (exitCode s).
Definition set_project (v : option (list string)) (s : State) : State :=
  mkState (tracking s) (isAsync s) (isRest s) (componentSet s) (deployResult s)
    (asyncDeployResult s) (resultsDir s) v (exitCode s).
Definition set_exitCode (v : Z) (s : State) : State :=
  mkState (tracking s) (isAsync s) (isRest s) (componentSet s) (deployResult s)
    (asyncDeployResult s) (resultsDir s) (project s) v.

(** A freshly constructed command. *)
Definition newCommand : State :=
  {| tracking := None; isAsync := false; isRest := false;
     componentSet := None; deployResult := None; asyncDeployResult := None;
     resultsDir := None; project := None; exitCode := 0 |}.

(** ** Commands as a log/state/error monad *)

Definition Cmd (A : Type) : Type := State -> list Event * State * (Err + A).

Definition ret {A} (x : A) : Cmd A := fun s => ([], s, inr x).

Definition bind {A B} (m : Cmd A) (k : A -> Cmd B) : Cmd B :=
  fun s =>
    match m s with
    | (l, s', inl e) => (l, s', inl e)
    | (l, s', inr x) =>
        match k x s' with
        | (l', s'', r) => (l ++ l', s'', r)
        end
    end.

Notation "x <- m ;; k" := (bind m (fun x => k))
  (at level 100, m at next level, right associativity).
Notation "m ;;; k" := (bind m (fun _ => k))
  (at level 100, right associativity).

Definition throw {A} (e : Err) : Cmd A := fun s => ([], s, inl e).

Definition tell (ev : Event) : Cmd unit := fun s => ([ev], s, inr tt).

Definition get : Cmd State := fun s => ([], s, inr s).

Definition modify (g : State -> State) : Cmd unit := fun s => ([], g s, inr tt).

(** The answer of a collaborator: a value, or a throw. *)
Definition answer {A} (r : Err + A) : Cmd A :=
  match r with inl e => throw e | inr x => ret x end.

(** The log of a call made only when [b] holds. *)
Definition optional (b : bool) (ev : Event) : list Event :=
  if b then [ev] else [].

(** [if (b) { call ev }], for a call that answers nothing and cannot
    throw. *)
Definition tellWhen (b : bool) (ev : Event) : Cmd unit :=
  fun s => (optional b ev, s, inr tt).

(** [try { m } catch (error) { h error }] *)
Definition tryCatch {A} (m : Cmd A) (h : Err -> Cmd A) : Cmd A :=
  fun s =>
    match m s with
    | (l, s', inl e) =>
        match h e s' with
        | (l', s'', r) => (l ++ l', s'', r)
        end
    | out => out
    end.

(** [m finally { fin }]: [fin] always runs; when it throws, its error
    replaces the outcome of [m]. *)
Definition finally {A} (m : Cmd A) (fin : Cmd unit) : Cmd A :=
  fun s =>
    match m s with
    | (l, s', r) =>
        match fin s' with
        | (l', s'', inl e) => (l ++ l', s'', inl e)
        | (l', s'', inr _) => (l ++ l', s'', r)
        end
    end.

Definition events {A} (o : list Event * State * (Err + A)) : list Event :=
  o.1.1.

Definition final {A} (o : list Event * State * (Err + A)) : State := o.1.2.

Definition outcome {A} (o : list Event * State * (Err + A)) : Err + A := o.2.

(** ** Flag configuration and its validation *)

(** The relations a flag definition of [flagsConfig] declares between
    flags. *)
Record FlagDef := mkFlagDef {
  flagName : string;
  exactlyOne : list string;
  exclusive : list string;
  dependsOn : list string;
  validated : bool;
  (* [min: Duration.minutes(n)] of a duration flag *)
  minimum : option N;
}.

Definition plainFlag (name : string) : FlagDef :=
  {| flagName := name; exactlyOne := []; exclusive := []; dependsOn := [];
     validated := false; minimum := None |}.

(** A duration flag with a least value. *)
Definition minutesFlag (name : string) (least : N) : FlagDef :=
  {| flagName := name; exactlyOne := []; exclusive := []; dependsOn := [];
     validated := false; minimum := Some least |}.

(** A flag is provided when the parsed flags hold a value for it. *)
Definition provided (f : Flags) (name : string) : bool :=
  bool_decide (is_Some (flag f name)).

Definition ConfigurationError (msg : string) : Err :=
  {| isError := true; errName := "ConfigurationError"; errMessage := msg |}.

(** A duration that is less than the declared least value. *)
Definition belowMinimum (least : option N) (v : option FlagValue) : bool :=
  match least, v with
  | Some m, Some (VMinutes q) => (q <? m)%N
  | _, _ => false
  end.

(** Modelled from the spec: the flag validation of the command framework,
    which is not among the sources.  It "validates mutually
    exclusive/required input options (e.g., exactly one of
    manifest/metadata/sourcepath/validation-id) before orchestration
    begins" and "fails with a ConfigurationError if more than one or none
    are provided".  Each definition is checked on its own, against the
    lists it declares; a duration below the declared [min] is an invalid
    flag value. *)
Definition checkFlag (w : World) (f : Flags) (d : FlagDef) : option Err :=
  if provided f (flagName d) then
    if belowMinimum (minimum d) (flag f (flagName d))
    then Some (ConfigurationError "the duration is below the minimum")
    else if existsb (fun also => negb (provided f also)) (dependsOn d)
    then Some (ConfigurationError "a flag this one depends on is missing")
    else if existsb (provided f) (exclusive d)
    then Some (ConfigurationError "an exclusive flag is also provided")
    else if existsb (fun also =>
                       negb (String.eqb also (flagName d)) && provided f also)
              (exactlyOne d)
    then Some (ConfigurationError "more than one of the flags is provided")
    else if validated d &&
            negb (match asStr (flag f (flagName d)) with
                  | Some v => isValidDeployId w v
                  | None => false
                  end)
    then Some (ConfigurationError "the value is not a valid deploy id")
    else None
  else
    if negb (bool_decide (exactlyOne d = [])) &&
       negb (existsb (provided f) (exactlyOne d))
    then Some (ConfigurationError "exactly one of the flags must be provided")
    else None.

(** Modelled from the spec: the framework checks every definition of the
    configuration and surfaces the first error "immediately, no partial
    work performed". *)
Fixpoint validateFlags (w : World) (f : Flags) (cfg : list FlagDef)
  : option Err :=
  match cfg with
  | [] => None
  | d :: cfg' =>
      match checkFlag w f d with
      | Some e => Some e
      | None => validateFlags w f cfg'
      end
  end.

(** Modelled from the spec: [formatter.getJson()] for the formatter built,
    as in [formatResult], from [this.asyncDeployResult] or from
    [this.deployResult]. *)
Definition getJson (k : FormatterKind) (s : State) : CommandResult :=
  match k with
  | DeployAsyncResultFormatter => DeployCommandAsyncResult (asyncDeployResult s)
  | DeployResultFormatter => DeployCommandResult (deployResult s)
  | DeployReportResultFormatter => DeployReportCommandResult (deployResult s)
  end.

(** ** Collaborators shared by both commands *)

Definition TypeError (msg : string) : Err :=
  {| isError := true; errName := "TypeError"; errMessage := msg |}.

Definition ConflictError (paths : list string) : Err :=
  {| isError := true; errName := "ConflictError";
     errMessage := String.concat ", " paths |}.

(** [this.getFlag<Duration>('wait').quantity]; the flag has a default. *)
Definition waitQuantity (w : World) (f : Flags) : N :=
  match flag f "wait" with
  | Some (VMinutes q) => q
  | _ => DEFAULT_WAIT_MINUTES w
  end.

(** [env.getBoolean('SFDX_USE_PROGRESS_BAR', true)] *)
Definition useProgressBar (w : World) : bool :=
  default true (SFDX_USE_PROGRESS_BAR w).

(** [lifecycle.emit(name, payload)]: listener failures are not caught. *)
Definition lifecycleEmit (w : World) (name : string) : Cmd unit :=
  tell (EvEmit name) ;;;
  match listenerThrows w name with
  | Some e => throw e
  | None => ret tt
  end.

(** Paths changed locally whose change conflicts with a remote change. *)
Definition conflicts (t : Tracking) : list string :=
  List.filter (fun p => bool_decide (p ∈ getChanges t Remote None))
    (getChanges t Local None).

(** Modelled from the spec: [filterConflictsByComponentSet] of
    trackingFunctions is not among the sources.  "The filter computes the
    intersection between local changes and the resolved component set; if
    any conflict remains, the orchestrator transitions to a terminal
    ConflictError state and aborts", and the error "lists conflicting
    paths". *)
Definition filterConflictsByComponentSet
  (t : option Tracking) (components : ComponentSet) : Cmd unit :=
  tell EvFilterConflicts ;;;
  match t with
  | None => throw (TypeError "tracking is undefined")
  | Some t =>
      match List.filter (hasPath components) (conflicts t) with
      | [] => ret tt
      | p :: ps => throw (ConflictError (p :: ps))
      end
  end.

(** [progressFormatter.progress(deploy)] with the formatter chosen by the
    environment toggle. *)
Definition progress (w : World) (verbose : option bool) : Event :=
  EvProgress (if useProgressBar w
              then DeployProgressBarFormatter
              else DeployProgressStatusFormatter verbose).

(** [this.maybeCreateRequestedReports()] of the base class: it writes the
    coverage and JUnit reports that were asked for, and may throw. *)
Definition maybeCreateRequestedReports (w : World) : Cmd unit :=
  tell EvCreateReports ;;;
  s <- get ;;
  match createReportsOutcome w (deployResult s) (resultsDir s) with
  | Some e => throw e
  | None => ret tt
  end.

(** [formatter.display()] for the formatter built from the fields of the
    command; the call may throw. *)
Definition display (w : World) (k : FormatterKind) : Cmd unit :=
  tell (EvDisplay k) ;;;
  s <- get ;;
  match displayOutcome w (getJson k s) with
  | Some e => throw e
  | None => ret tt
  end.

(** ** force:source:deploy *)

Module Deploy.

(** One of these flags must be specified for a valid deploy. *)
Definition xorFlags : list string :=
  ["manifest"; "metadata"; "sourcepath"; "validateddeployrequestid"].

Definition flagsConfig : list FlagDef :=
  [ plainFlag "checkonly";
    plainFlag "soapdeploy";
    minutesFlag "wait" 0;
    plainFlag "testlevel";
    plainFlag "runtests";
    plainFlag "ignoreerrors";
    plainFlag "ignorewarnings";
    {| flagName := "purgeondelete"; exactlyOne := []; exclusive := [];
       dependsOn := ["manifest"]; validated := false; minimum := None |};
    {| flagName := "validateddeployrequestid"; exactlyOne := xorFlags;
       exclusive := ["checkonly"; "testlevel"; "runtests"; "tracksource"];
       dependsOn := []; validated := true; minimum := None |};
    plainFlag "verbose";
    {| flagName := "metadata"; exactlyOne := xorFlags; exclusive := [];
       dependsOn := []; validated := false; minimum := None |};
    {| flagName := "sourcepath"; exactlyOne := xorFlags; exclusive := [];
       dependsOn := []; validated := false; minimum := None |};
    {| flagName := "manifest"; exactlyOne := xorFlags; exclusive := [];
       dependsOn := []; validated := false; minimum := None |};
    {| flagName := "predestructivechanges"; exactlyOne := [];
       exclusive := []; dependsOn := ["manifest"]; validated := false;
       minimum := None |};
    {| flagName := "postdestructivechanges"; exactlyOne := [];
       exclusive := []; dependsOn := ["manifest"]; validated := false;
       minimum := None |};
    {| flagName := "tracksource"; exactlyOne := [];
       exclusive := ["checkonly"; "validateddeployrequestid"];
       dependsOn := []; validated := false; minimum := None |};
    {| flagName := "forceoverwrite"; exactlyOne := []; exclusive := [];
       dependsOn := ["tracksource"]; validated := false; minimum := None |};
    plainFlag "resultsdir";
    plainFlag "coverageformatters";
    plainFlag "junit" ].

Definition lifecycleEventNames : list string := ["predeploy"; "postdeploy"].

Definition preChecks (w : World) (f : Flags) : Cmd unit :=
  if isSet f "tracksource" then
    tell EvTrackingSetup ;;;
    t <- answer (trackingStore w) ;;
    modify (set_tracking (Some t))
  else ret tt.

(** [ComponentSetBuilder.build]'s argument, as [deploy] assembles it. *)
Definition buildArgs (packageDirs : list string) (f : Flags)
    (sav : option string) : BuildArgs :=
  {| b_apiversion := asStr (flag f "apiversion");
     b_sourceapiversion := sav;
     b_sourcepath := asArr (flag f "sourcepath");
     b_manifest :=
       if isSet f "manifest" then
         Some {| manifestPath := asStr (flag f "manifest");
                 manifestDirs := packageDirs;
                 destructiveChangesPre :=
                   asStr (flag f "predestructivechanges");
                 destructiveChangesPost :=
                   asStr (flag f "postdestructivechanges") |}
       else None;
     b_metadata :=
       if isSet f "metadata" then
         Some {| metadataEntries := asArr (flag f "metadata");
                 metadataDirs := packageDirs |}
       else None |}.

Definition apiOptions (f : Flags) (s : State) : ApiOptions :=
  {| purgeOnDelete := getBool f "purgeondelete";
     ignoreWarnings := getBool f "ignorewarnings";
     rollbackOnError := negb (getBool f "ignoreerrors");
     checkOnly := getBool f "checkonly";
     rest := isRest s;
     testLevel :=
       if isSet f "testlevel" then asStr (flag f "testlevel") else None;
     runTests :=
       if isSet f "runtests" then asArr (flag f "runtests") else None |}.

(** Modelled from the spec: [DeployCommand.deployRecentValidation] is not
    among the sources.  It is the "replay-by-id transport:
    deployRecentValidation(id) -> DeployResult", a call that may throw.
    As a deploy submitter it "receives a request identifier", the
    "request id" of the DeployResult, which the command keeps as its
    async status: "if wait-duration is zero, the orchestrator stores only
    the request identifier". *)
Definition deployRecentValidation (w : World) (f : Flags)
  : Cmd DeployResult :=
  let i := default "" (asStr (flag f "validateddeployrequestid")) in
  tell (EvDeployRecentValidation i) ;;;
  r <- answer (recentValidation w i) ;;
  modify (set_asyncDeployResult (Some {| id := responseId r |})) ;;;
  ret r.

(** The branch of [deploy] that builds and submits a component set. *)
Definition deployComponentSet (w : World) (f : Flags) (waitDuration : N)
  : Cmd unit :=
  sav <- answer (getSourceApiVersion w) ;;
  let args := buildArgs (getPackageDirs w) f sav in
  tell (EvBuild args) ;;;
  cs <- answer (build w args) ;;
  modify (set_componentSet (Some cs)) ;;;
  (if getBool f "tracksource" then
     s <- get ;;
     (* will throw if conflicts exist *)
     (if negb (getBool f "forceoverwrite")
      then filterConflictsByComponentSet (tracking s) cs
      else ret tt) ;;;
     match tracking s with
     | None => throw (TypeError "tracking is undefined")
     | Some t =>
         tell (EvGetChanges Local (Some Delete)) ;;;
         let localDeletes := getChanges t Local (Some Delete) in
         tellWhen (negb (length localDeletes =? 0)%nat)
           (EvWarn "deployWontDelete")
     end
   else ret tt) ;;;
  (* fire predeploy event for sync and async deploys *)
  lifecycleEmit w "predeploy" ;;;
  let username := getUsername w in
  tell (EvOn "apiVersionDeploy") ;;;
  s <- get ;;
  tell (EvDeploy cs username (apiOptions f s)) ;;;
  (* the listener registered above logs the API version the transport
     announces *)
  tellWhen (announcesApiVersion w) (EvLog "apiVersionMsgDetailed") ;;;
  deployId <- answer (submit w cs username (apiOptions f s)) ;;
  modify (set_asyncDeployResult (Some {| id := deployId |})) ;;;
  tell (EvUpdateDeployId deployId) ;;;
  if negb (isAsync s) then
    (* we're not print JSON output *)
    tellWhen (negb (isJsonOutput w))
      (progress w (Some (getBool f "verbose"))) ;;;
    tell (EvPollStatus deployId waitDuration) ;;;
    r <- answer (pollStatus w deployId waitDuration) ;;
    modify (set_deployResult (Some r))
  else ret tt.

(** There are 3 types of deploys: synchronous, asynchronous and recent
    validation. *)
Definition deploy (w : World) (f : Flags) : Cmd unit :=
  let waitDuration := waitQuantity w f in
  modify (set_isAsync ((waitDuration =? 0)%N)) ;;;
  modify (set_isRest (isRestDeploy w)) ;;;
  tellWhen ((waitDuration =? 0)%N &&
            (isSet f "coverageformatters" || isSet f "junit"))
    (EvWarn "asyncCoverageJunitWarning") ;;;
  (if isSet f "validateddeployrequestid" then
     r <- deployRecentValidation w f ;;
     modify (set_deployResult (Some r))
   else deployComponentSet w f waitDuration) ;;;
  s <- get ;;
  match deployResult s with
  | Some _ =>
      (* Only fire the postdeploy event when we have results. *)
      lifecycleEmit w "postdeploy"
  | None => ret tt
  end.

(** Modelled from the spec: [DeployCommand.resolveSuccess] is not among
    the sources; it settles the exit code from the outcome of the deploy
    ("exit code is non-zero on any fatal state").  The table from
    outcomes to codes is a parameter of the world. *)
Definition resolveSuccess (w : World) : Cmd unit :=
  modify (fun s =>
    set_exitCode (statusExitCode w (isAsync s) (deployResult s)) s).

Definition maybeUpdateTracking (w : World) (f : Flags) : Cmd unit :=
  if getBool f "tracksource" then
    tell EvUpdateTracking ;;;
    s <- get ;;
    match updateTrackingOutcome w (deployResult s) with
    | Some e => throw e
    | None => ret tt
    end
  else ret tt.

Definition formatResult (w : World) (f : Flags) : Cmd CommandResult :=
  s <- get ;;
  dir <- answer
           (resolveOutputDir w (asArr (flag f "coverageformatters"))
              (getBool f "junit") (asStr (flag f "resultsdir"))
              (responseId <$> deployResult s) false) ;;
  modify (set_resultsDir dir) ;;;
  let formatter :=
    if isAsync s then DeployAsyncResultFormatter else DeployResultFormatter in
  (if negb (isAsync s) then maybeCreateRequestedReports w else ret tt) ;;;
  (* Only display results to console when JSON flag is unset. *)
  (if negb (isJsonOutput w) then display w formatter else ret tt) ;;;
  s <- get ;;
  ret (getJson formatter s).

Definition run (w : World) (f : Flags) : Cmd CommandResult :=
  preChecks w f ;;;
  deploy w f ;;;
  resolveSuccess w ;;;
  maybeUpdateTracking w f ;;;
  formatResult w f.

(** One invocation: the framework validates the parsed flags against
    [flagsConfig], then runs a fresh command. *)
Definition invoke (w : World) (f : Flags)
  : list Event * State * (Err + CommandResult) :=
  match validateFlags w f flagsConfig with
  | Some e => ([], newCommand, inl e)
  | None => run w f newCommand
  end.

End Deploy.

(** ** force:source:deploy:report *)

Module Report.

Definition flagsConfig : list FlagDef :=
  [ minutesFlag "wait" 1;
    {| flagName := "jobid"; exactlyOne := []; exclusive := [];
       dependsOn := []; validated := true; minimum := None |};
    plainFlag "verbose";
    plainFlag "resultsdir";
    plainFlag "coverageformatters";
    plainFlag "junit" ].

(** [needle] occurs in [hay]: [hay.includes(needle)]. *)
Fixpoint includes (needle hay : string) : bool :=
  String.prefix needle hay ||
  match hay with
  | EmptyString => false
  | String _ hay' => includes needle hay'
  end.

(** The condition of the [catch] clause of [doReport]. *)
Definition clientTimedOut (error : Err) : bool :=
  isError error && includes "The client has timed out" (errMessage error).

Definition doReport (w : World) (f : Flags) : Cmd unit :=
  tell (EvResolveDeployId (asStr (flag f "jobid"))) ;;;
  deployId <- answer (resolveDeployId w (asStr (flag f "jobid"))) ;;
  dir <- answer
           (resolveOutputDir w (asArr (flag f "coverageformatters"))
              (getBool f "junit") (asStr (flag f "resultsdir"))
              (Some deployId) false) ;;
  modify (set_resultsDir dir) ;;;
  (* If the verbose flag is set, build a ComponentSet so we have mapped
     source file output. *)
  (if getBool f "verbose" then
     sourcepath <-
       tryCatch
         (tell EvResolveProject ;;;
          dirs <- answer (projectDirs w) ;;
          modify (set_project (Some dirs)) ;;;
          ret (Some dirs))
         (fun _ => (* ignore the error *) ret None) ;;
     let args :=
       {| b_apiversion := None; b_sourceapiversion := None;
          b_sourcepath := sourcepath; b_manifest := None;
          b_metadata := None |} in
     tell (EvBuild args) ;;;
     cs <- answer (build w args) ;;
     modify (set_componentSet (Some cs))
   else ret tt) ;;;
  let waitDuration := waitQuantity w f in
  tell (EvCreateDeploy deployId) ;;;
  tellWhen (negb (isJsonOutput w)) (progress w None) ;;;
  finally
    (tryCatch
       (tell (EvPollStatus deployId waitDuration) ;;;
        _ <- answer (pollStatus w deployId waitDuration) ;;
        ret tt)
       (fun error =>
          if clientTimedOut error
          then tell (EvDebug
                 "source:deploy:report polling timed out. Requesting status...")
          else throw error))
    (tell (EvReport deployId) ;;;
     r <- answer (report w deployId) ;;
     modify (set_deployResult (Some r))).

(** No-op implementation since any DeployResult status would be a
    success. *)
Definition resolveSuccess : Cmd unit := ret tt.

Definition formatResult (w : World) (f : Flags) : Cmd CommandResult :=
  maybeCreateRequestedReports w ;;;
  (* Only display results to console when JSON flag is unset. *)
  (if negb (isJsonOutput w)
   then display w DeployReportResultFormatter
   else ret tt) ;;;
  s <- get ;;
  ret (getJson DeployReportResultFormatter s).

Definition run (w : World) (f : Flags) : Cmd CommandResult :=
  doReport w f ;;;
  resolveSuccess ;;;
  formatResult w f.

Definition invoke (w : World) (f : Flags)
  : list Event * State * (Err + CommandResult) :=
  match validateFlags w f flagsConfig with
  | Some e => ([], newCommand, inl e)
  | None => run w f newCommand
  end.

End Report.

(** The exit status the framework reports for an invocation: a thrown
    error is a command failure; otherwise the code the command settled. *)
Definition exitStatus {A} (o : list Event * State * (Err + A)) : Z :=
  match outcome o with
  | inl _ => 1
  | inr _ => exitCode (final o)
  end.

(** ** Sample worlds and invocations *)

Definition okResult (st : RequestStatus) : DeployResult :=
  {| responseId := "0Af000000000002"; status := st; numberTestsTotal := 0 |}.

Definition sampleSet : ComponentSet :=
  [ {| fullName := "Foo"; typeName := "ApexClass";
       files := ["classes/Foo.cls"; "classes/Foo.cls-meta.xml"] |} ].

(** The error of a request for reports that has no directory to write
    them to. *)
Definition resultsDirMissing : Err :=
  {| isError := true; errName := "ResultsDirMissing";
     errMessage := "no directory for the requested reports" |}.

(** A results directory resolver: the directory asked for; else, when
    reports are asked for, the deploy id, whose absence is an error unless
    [noThrow]; else none. *)
Definition sampleOutputDir (coverageFormatters : option (list string))
    (junit : bool) (resultsDir deployId : option string) (noThrow : bool)
  : Err + option string :=
  match resultsDir with
  | Some dir => inr (Some dir)
  | None =>
      if bool_decide (is_Some coverageFormatters) || junit then
        match deployId with
        | Some i => inr (Some i)
        | None => if noThrow then inr None else inl resultsDirMissing
        end
      else inr None
  end.

(** The errors the formatters throw when they display a failed deploy. *)
Definition deployFailed : Err :=
  {| isError := true; errName := "DeployFailed";
     errMessage := "Deploy failed." |}.

Definition mdapiDeployFailed : Err :=
  {| isError := true; errName := "mdapiDeployFailed";
     errMessage := "The metadata deploy operation failed." |}.

Definition hasFailed (r : option DeployResult) : bool :=
  match status <$> r with
  | Some Failed => true
  | _ => false
  end.

(** Formatters whose display throws on a DeployResult of status Failed. *)
Definition sampleDisplay (r : CommandResult) : option Err :=
  match r with
  | DeployCommandAsyncResult _ => None
  | DeployCommandResult dr =>
      if hasFailed dr then Some deployFailed else None
  | DeployReportCommandResult dr =>
      if hasFailed dr then Some mdapiDeployFailed else None
  end.

Definition sampleWorld (json : bool) (store : Tracking)
    (polled fetched : Err + DeployResult) : World :=
  {| isJsonOutput := json;
     SFDX_USE_PROGRESS_BAR := None;
     isValidDeployId := fun v => String.prefix "0Af" v;
     DEFAULT_WAIT_MINUTES := 33;
     isRestDeploy := false;
     getSourceApiVersion := inr None;
     getPackageDirs := ["force-app"];
     getUsername := "user@example.com";
     resolveOutputDir := sampleOutputDir;
     createReportsOutcome := fun _ _ => None;
     statusExitCode := fun _ _ => 0%Z;
     resolveDeployId := fun j => inr (default "0Af000000000000" j);
     report := fun _ => fetched;
     trackingStore := inr store;
     updateTrackingOutcome := fun _ => None;
     build := fun _ => inr sampleSet;
     projectDirs := inr ["force-app"];
     submit := fun _ _ _ => inr "0Af000000000002";
     announcesApiVersion := true;
     pollStatus := fun _ _ => polled;
     recentValidation := fun _ => inr (okResult Succeeded);
     listenerThrows := fun _ => None;
     displayOutcome := sampleDisplay |}.

Definition calmWorld : World :=
  sampleWorld false [] (inr (okResult Succeeded)) (inr (okResult Succeeded)).

Definition metadataAsync : Flags :=
  {[ "metadata" := VArr ["ApexClass"]; "wait" := VMinutes 0 ]}.

Definition replayAsync : Flags :=
  {[ "validateddeployrequestid" := VStr "0Af000000000001";
     "wait" := VMinutes 0 ]}.

Definition manifestTracked : Flags :=
  {[ "manifest" := VStr "pkg.xml"; "tracksource" := VBool true;
     "wait" := VMinutes 33 ]}.

(** ** Classes of events *)

Definition isBuild (ev : Event) : bool :=
  match ev with EvBuild _ => true | _ => false end.

(** The deploy submission call, [componentSet.deploy]. *)
Definition isSubmit (ev : Event) : bool :=
  match ev with EvDeploy _ _ _ => true | _ => false end.

Definition isPoll (ev : Event) : bool :=
  match ev with EvPollStatus _ _ => true | _ => false end.

Definition isReplay (ev : Event) : bool :=
  match ev with EvDeployRecentValidation _ => true | _ => false end.

Definition isEmitOf (name : string) (ev : Event) : bool :=
  match ev with EvEmit n => String.eqb n name | _ => false end.

Definition isWarnOf (key : string) (ev : Event) : bool :=
  match ev with EvWarn k => String.eqb k key | _ => false end.

(** What the commands render for a human reader: progress and the
    formatter's display. *)
Definition isDisplay (ev : Event) : bool :=
  match ev with EvProgress _ | EvDisplay _ => true | _ => false end.

(** Calls that reach the org or the tracking stores. *)
Definition isNetworkCall (ev : Event) : bool :=
  match ev with
  | EvTrackingSetup | EvDeploy _ _ _ | EvPollStatus _ _
  | EvDeployRecentValidation _ | EvReport _ | EvUpdateTracking => true
  | _ => false
  end.

(** ** What the properties speak of *)

(** The number of input-mode flags an invocation provides. *)
Definition inputModes (f : Flags) : nat :=
  length (List.filter (provided f) Deploy.xorFlags).

(** A flag definition reduced to its [exactlyOne] declaration. *)
Definition xorOnly (d : FlagDef) : FlagDef :=
  {| flagName := flagName d; exactlyOne := exactlyOne d; exclusive := [];
     dependsOn := []; validated := false; minimum := None |}.

Definition isInr {A B} (x : A + B) : bool :=
  match x with inr _ => true | inl _ => false end.

(** A status poll that was issued and returned a result. *)
Definition pollReturned (w : World) (ev : Event) : bool :=
  match ev with
  | EvPollStatus i q => isInr (pollStatus w i q)
  | _ => false
  end.

(** A replay by id that was issued and returned a result. *)
Definition replayReturned (w : World) (ev : Event) : bool :=
  match ev with
  | EvDeployRecentValidation i => isInr (recentValidation w i)
  | _ => false
  end.

(** [this.deployResult] is set. *)
Definition populated (s : State) : bool :=
  match deployResult s with Some _ => true | None => false end.


(** ** More classes of events *)

(** Calls on the tracking stores. *)
Definition isTrackingCall (ev : Event) : bool :=
  match ev with
  | EvTrackingSetup | EvFilterConflicts | EvGetChanges _ _
  | EvUpdateTracking => true
  | _ => false
  end.

Definition isFilterConflicts (ev : Event) : bool :=
  match ev with EvFilterConflicts => true | _ => false end.

Definition isUpdateTracking (ev : Event) : bool :=
  match ev with EvUpdateTracking => true | _ => false end.

Definition isCreateReports (ev : Event) : bool :=
  match ev with EvCreateReports => true | _ => false end.

(** [formatter.display()] *)
Definition isFormatterDisplay (ev : Event) : bool :=
  match ev with EvDisplay _ => true | _ => false end.

(** Calls on the lifecycle bus. *)
Definition isLifecycle (ev : Event) : bool :=
  match ev with EvEmit _ | EvOn _ => true | _ => false end.

(** The status fetch of the report command. *)
Definition isReportFetch (ev : Event) : bool :=
  match ev with EvReport _ => true | _ => false end.

(** How many entries of a log are of a class. *)
Definition countOf (P : Event -> bool) (evs : list Event) : nat :=
  length (List.filter P evs).

(** [progressFormatter.progress(deploy)] *)
Definition isProgress (ev : Event) : bool :=
  match ev with EvProgress _ => true | _ => false end.

(** The component set the verbose report builds. *)
Definition reportBuildArgs (w : World) : BuildArgs :=
  {| b_apiversion := None; b_sourceapiversion := None;
     b_sourcepath := match projectDirs w with
                     | inr dirs => Some dirs
                     | inl _ => None
                     end;
     b_manifest := None; b_metadata := None |}.

(** ** More sample inputs *)

(** A store whose only change is the local deletion of a file that
    [sampleSet] holds. *)
Definition fooDeleted : Tracking :=
  [ {| origin := Local; state := Delete; path := "classes/Foo.cls" |} ].

(** A store with a file changed on both sides. *)
Definition fooConflict : Tracking :=
  [ {| origin := Local; state := Modify; path := "classes/Foo.cls" |};
    {| origin := Remote; state := Modify; path := "classes/Foo.cls" |} ].

Definition conflictWorld : World :=
  sampleWorld false fooConflict (inr (okResult Succeeded))
    (inr (okResult Succeeded)).

Definition deletedWorld : World :=
  sampleWorld false fooDeleted (inr (okResult Succeeded))
    (inr (okResult Succeeded)).

Definition jsonWorld : World :=
  sampleWorld true [] (inr (okResult Succeeded)) (inr (okResult Succeeded)).

(** The error of a poll that ran out of time on the client side. *)
Definition timedOut : Err :=
  {| isError := true; errName := "Error";
     errMessage := "Metadata API request failed: The client has timed out." |}.

(** A world whose status poll times out while the deploy is in progress. *)
Definition slowWorld : World :=
  sampleWorld false [] (inl timedOut) (inr (okResult InProgress)).

(** A world whose deploy has failed. *)
Definition failedWorld : World :=
  sampleWorld false [] (inr (okResult Failed)) (inr (okResult Failed)).

(** The failed deploy, seen in JSON output mode. *)
Definition jsonFailedWorld : World :=
  sampleWorld true [] (inr (okResult Failed)) (inr (okResult Failed)).

(** The error of a connection that broke. *)
Definition hangUp : Err :=
  {| isError := true; errName := "Error"; errMessage := "socket hang up" |}.

(** A world whose status poll fails on a broken connection. *)
Definition brokenWorld : World :=
  sampleWorld false [] (inl hangUp) (inr (okResult InProgress)).

Definition reportJob : Flags :=
  {[ "jobid" := VStr "0Af000000000009"; "wait" := VMinutes 1 ]}.

Definition reportJunit : Flags :=
  {[ "jobid" := VStr "0Af000000000009"; "wait" := VMinutes 1;
     "junit" := VBool true ]}.

Definition metadataSyncJunit : Flags :=
  {[ "metadata" := VArr ["ApexClass"]; "wait" := VMinutes 33;
     "junit" := VBool true ]}.

(** The same world, with a listener of the named event that throws. *)
Definition withListener (name : string) (e : Err) (w : World) : World :=
  {| isJsonOutput := isJsonOutput w;
     SFDX_USE_PROGRESS_BAR := SFDX_USE_PROGRESS_BAR w;
     isValidDeployId := isValidDeployId w;
     DEFAULT_WAIT_MINUTES := DEFAULT_WAIT_MINUTES w;
     isRestDeploy := isRestDeploy w;
     getSourceApiVersion := getSourceApiVersion w;
     getPackageDirs := getPackageDirs w;
     getUsername := getUsername w;
     resolveOutputDir := resolveOutputDir w;
     createReportsOutcome := createReportsOutcome w;
     statusExitCode := statusExitCode w;
     resolveDeployId := resolveDeployId w;
     report := report w;
     trackingStore := trackingStore w;
     updateTrackingOutcome := updateTrackingOutcome w;
     build := build w;
     projectDirs := projectDirs w;
     submit := submit w;
     announcesApiVersion := announcesApiVersion w;
     pollStatus := pollStatus w;
     recentValidation := recentValidation w;
     listenerThrows :=
       fun n => if String.eqb n name then Some e else listenerThrows w n;
     displayOutcome := displayOutcome w |}.

(** The same world, with a tracking update that throws. *)
Definition withFailingUpdate (e : Err) (w : World) : World :=
  {| isJsonOutput := isJsonOutput w;
     SFDX_USE_PROGRESS_BAR := SFDX_USE_PROGRESS_BAR w;
     isValidDeployId := isValidDeployId w;
     DEFAULT_WAIT_MINUTES := DEFAULT_WAIT_MINUTES w;
     isRestDeploy := isRestDeploy w;
     getSourceApiVersion := getSourceApiVersion w;
     getPackageDirs := getPackageDirs w;
     getUsername := getUsername w;
     resolveOutputDir := resolveOutputDir w;
     createReportsOutcome := createReportsOutcome w;
     statusExitCode := statusExitCode w;
     resolveDeployId := resolveDeployId w;
     report := report w;
     trackingStore := trackingStore w;
     updateTrackingOutcome := fun _ => Some e;
     build := build w;
     projectDirs := projectDirs w;
     submit := submit w;
     announcesApiVersion := announcesApiVersion w;
     pollStatus := pollStatus w;
     recentValidation := recentValidation w;
     listenerThrows := listenerThrows w;
     displayOutcome := displayOutcome w |}.

Definition listenerError : Err :=
  {| isError := true; errName := "Error"; errMessage := "listener failed" |}.

Definition vetoWorld : World :=
  withListener "predeploy" listenerError calmWorld.

Definition postVetoWorld : World :=
  withListener "postdeploy" listenerError calmWorld.

Definition staleStoreWorld : World :=
  withFailingUpdate listenerError calmWorld.

Definition sourcepathTrackedAsync : Flags :=
  {[ "sourcepath" := VArr ["force-app"]; "tracksource" := VBool true;
     "wait" := VMinutes 0 ]}.

Definition metadataSync : Flags :=
  {[ "metadata" := VArr ["ApexClass"]; "wait" := VMinutes 33 ]}.

Definition metadataAsyncJunit : Flags :=
  {[ "metadata" := VArr ["ApexClass"]; "wait" := VMinutes 0;
     "junit" := VBool true ]}.

Definition reportVerbose : Flags :=
  {[ "jobid" := VStr "0Af000000000009"; "wait" := VMinutes 1;
     "verbose" := VBool true ]}.

Definition manifestForced : Flags :=
  {[ "manifest" := VStr "pkg.xml"; "tracksource" := VBool true;
     "forceoverwrite" := VBool true; "wait" := VMinutes 33 ]}.

Arguments flag : simpl never.
Arguments provided : simpl never.
Arguments isSet : simpl never.
Arguments getBool : simpl never.
Arguments waitQuantity : simpl never.
Arguments asStr : simpl never.
Arguments asArr : simpl never.
Arguments optional : simpl never.
Arguments progress : simpl never.
Arguments getJson : simpl never.
Arguments Deploy.buildArgs : simpl never.
Arguments Deploy.apiOptions : simpl never.
Arguments countOf : simpl never.

(** * Properties *)

(** ** Stepping through a command *)

Ltac unfold_cmd :=
  unfold events, final, outcome, lifecycleEmit, maybeCreateRequestedReports,
    display, tellWhen, answer, finally, tryCatch, bind, ret, throw, tell,
    get, modify in *.

(** A stuck scrutinee: use what is known of it, or else split on it. *)
Ltac decide_on x :=
  first [ match goal with H : x = _ |- _ => rewrite H end
        | destruct x eqn:? ].

(** One step on the first stuck branch of [c], in the order of the
    control flow; a scrutinee that is itself stuck is passed over. *)
Ltac step_in c :=
  match c with
  | context [match ?x with _ => _ end] =>
      lazymatch x with
      | context [match _ with _ => _ end] => fail
      | _ => idtac
      end;
      lazymatch type of x with
      | sum _ _ => decide_on x
      | option _ => decide_on x
      | list _ => decide_on x
      | bool => lazymatch x with
                | negb ?y => decide_on y
                | _ => decide_on x
                end
      end
  end.

Ltac step := match goal with |- ?g => step_in g end.

Ltac settle := unfold_cmd; repeat (cbn; step); cbn.

(** Use the recorded answers of the transport. *)
Ltac use_answers :=
  repeat match goal with
         | H : pollStatus _ _ _ = _ |- _ => rewrite H
         | H : recentValidation _ _ = _ |- _ => rewrite H
         end.

(** Close a case whose recorded answers contradict each other. *)
Ltac clash :=
  exfalso;
  repeat match goal with
         | H : ?x = _, H' : context [?x] |- _ => rewrite H in H'
         end;
  cbn in *; congruence.

Lemma existsb_optional (P : Event -> bool) (b : bool) (ev : Event) :
  existsb P (optional b ev) = b && P ev.
Proof.
  destruct b; unfold optional; cbn; [apply orb_false_r | reflexivity].
Qed.

(** Evaluate a classifier over a log some of whose entries are
    conditional. *)
Ltac scan :=
  repeat (progress
            (rewrite ?existsb_app, ?existsb_optional, ?andb_false_r,
               ?andb_true_r, ?orb_false_r, ?orb_true_r; cbn)).

(** ** The scenarios of the specification *)

(** [deploy --metadata ApexClass --wait 0] returns the identifier at once
    and exits with status 0. *)
Example scenario_metadata_async :
  outcome (Deploy.invoke calmWorld metadataAsync)
    = inr (DeployCommandAsyncResult (Some {| id := "0Af000000000002" |})) /\
  exitStatus (Deploy.invoke calmWorld metadataAsync) = 0%Z /\
  existsb isPoll (events (Deploy.invoke calmWorld metadataAsync)) = false.
Proof. vm_compute. auto. Qed.

(** [deploy --manifest pkg.xml --tracksource] with a conflicting file
    fails, names the file, and never calls the deploy transport. *)
Example scenario_manifest_conflict :
  outcome (Deploy.invoke conflictWorld manifestTracked)
    = inl (ConflictError ["classes/Foo.cls"]) /\
  exitStatus (Deploy.invoke conflictWorld manifestTracked) <> 0%Z /\
  existsb isSubmit (events (Deploy.invoke conflictWorld manifestTracked))
    = false.
Proof. vm_compute. repeat split. discriminate. Qed.

(** [deploy --validateddeployrequestid 0Af000000000001] calls the replay
    transport and nothing of the component-set branch. *)
Example scenario_replay :
  events (Deploy.invoke calmWorld
            {[ "validateddeployrequestid" := VStr "0Af000000000001";
               "wait" := VMinutes 33 ]})
    = [ EvDeployRecentValidation "0Af000000000001"; EvEmit "postdeploy";
        EvCreateReports; EvDisplay DeployResultFormatter ].
Proof. vm_compute. reflexivity. Qed.

(** The report command fetches the status after a poll that timed out on
    the client, and fails on any other poll error. *)
Example scenario_report_timeout :
  events (Report.invoke slowWorld reportJob)
    = [ EvResolveDeployId (Some "0Af000000000009");
        EvCreateDeploy "0Af000000000009";
        EvProgress DeployProgressBarFormatter;
        EvPollStatus "0Af000000000009" 1;
        EvDebug "source:deploy:report polling timed out. Requesting status...";
        EvReport "0Af000000000009"; EvCreateReports;
        EvDisplay DeployReportResultFormatter ] /\
  outcome (Report.invoke slowWorld reportJob)
    = inr (DeployReportCommandResult (Some (okResult InProgress))) /\
  outcome
    (Report.invoke
       (sampleWorld false []
          (inl {| isError := true; errName := "Error";
                  errMessage := "socket hang up" |})
          (inr (okResult InProgress)))
       reportJob)
    = inl {| isError := true; errName := "Error";
             errMessage := "socket hang up" |}.
Proof. vm_compute. auto. Qed.

(** ** Flag validation *)

Section Validation.

Variable w : World.
Variable f : Flags.

Lemma validateFlags_None (cfg : list FlagDef) :
  validateFlags w f cfg = None <-> Forall (fun d => checkFlag w f d = None) cfg.
Proof.
  induction cfg as [|d cfg IH]; cbn.
  - split; auto.
  - destruct (checkFlag w f d) eqn:E.
    + split; [discriminate|]. intros H. inversion H; congruence.
    + rewrite IH. split; [auto | intros H; inversion H; auto].
Qed.

(** Every error of the validation is a ConfigurationError. *)
Lemma checkFlag_error_name (d : FlagDef) (e : Err) :
  checkFlag w f d = Some e -> errName e = "ConfigurationError".
Proof.
  unfold checkFlag. repeat step; intros H; inversion H; reflexivity.
Qed.

Lemma validateFlags_error_name (cfg : list FlagDef) (e : Err) :
  validateFlags w f cfg = Some e -> errName e = "ConfigurationError".
Proof.
  induction cfg as [|d cfg IH]; cbn; [discriminate|].
  destruct (checkFlag w f d) eqn:E; [|exact IH].
  intros H; inversion H; subst. eapply checkFlag_error_name; eauto.
Qed.

Lemma isSet_provided (name : string) :
  isSet f name = true -> provided f name = true.
Proof.
  unfold isSet, provided. destruct (flag f name); cbn; [auto | discriminate].
Qed.

Lemma not_provided_not_set (name : string) :
  provided f name = false -> isSet f name = false.
Proof.
  intros H. destruct (isSet f name) eqn:E; [|reflexivity].
  apply isSet_provided in E. congruence.
Qed.

(** What the four [exactlyOne] declarations amount to. *)
Lemma xor_declarations_accept :
  validateFlags w f (map xorOnly Deploy.flagsConfig) = None <->
  inputModes f = 1.
Proof.
  unfold inputModes, Deploy.xorFlags. cbn.
  unfold checkFlag; cbn.
  repeat match goal with
         | |- context [if ?b then None else None] =>
             replace (if b then None else None) with (@None Err)
               by (destruct b; reflexivity)
         end.
  destruct (provided f "manifest"), (provided f "metadata"),
    (provided f "sourcepath"), (provided f "validateddeployrequestid");
    cbn; split; intros; try discriminate; try reflexivity.
Qed.

Lemma xor_check_survives (d : FlagDef) :
  checkFlag w f d = None -> checkFlag w f (xorOnly d) = None.
Proof.
  unfold checkFlag; cbn. repeat step; auto; discriminate.
Qed.

Lemma accepted_has_one_mode :
  validateFlags w f Deploy.flagsConfig = None -> inputModes f = 1.
Proof.
  intros H. apply xor_declarations_accept.
  apply validateFlags_None. apply validateFlags_None in H.
  induction H as [|d cfg Hd _ IH]; cbn; constructor; auto.
  now apply xor_check_survives.
Qed.

(** An accepted invocation that tracks source is not a replay:
    [tracksource] declares [validateddeployrequestid] exclusive. *)
Lemma tracked_is_no_replay :
  validateFlags w f Deploy.flagsConfig = None ->
  isSet f "tracksource" = true ->
  isSet f "validateddeployrequestid" = false.
Proof.
  intros Hv Ht. apply isSet_provided in Ht.
  apply validateFlags_None in Hv.
  assert (Hd : checkFlag w f
            {| flagName := "tracksource"; exactlyOne := [];
               exclusive := ["checkonly"; "validateddeployrequestid"];
               dependsOn := []; validated := false; minimum := None |} = None).
  { rewrite Forall_forall in Hv. apply Hv. unfold Deploy.flagsConfig.
    repeat first [left; reflexivity | right]. }
  unfold checkFlag in Hd; cbn in Hd. rewrite Ht in Hd. cbn in Hd.
  apply not_provided_not_set.
  destruct (provided f "checkonly"), (provided f "validateddeployrequestid");
    cbn in Hd; congruence.
Qed.

End Validation.

(** C1. The [exactlyOne] declarations of [flagsConfig] accept exactly the
    invocations that provide one of manifest, metadata, sourcepath and
    validateddeployrequestid; an invocation that provides none or several
    of them fails with a ConfigurationError, and no collaborator has been
    called by then. *)
Theorem deploy_exactly_one_input_mode (w : World) (f : Flags) :
  (validateFlags w f (map xorOnly Deploy.flagsConfig) = None <->
   inputModes f = 1) /\
  (inputModes f <> 1 ->
   exists e,
     Deploy.invoke w f = ([], newCommand, inl e) /\
     errName e = "ConfigurationError" /\
     existsb isNetworkCall (events (Deploy.invoke w f)) = false).
Proof.
  split; [apply xor_declarations_accept|].
  intros Hn. unfold Deploy.invoke.
  destruct (validateFlags w f Deploy.flagsConfig) as [e|] eqn:E.
  - exists e. split; [reflexivity|]. split; [|reflexivity].
    eapply validateFlags_error_name; eauto.
  - exfalso. apply Hn. eapply accepted_has_one_mode; eauto.
Qed.

Lemma deploy_exactly_one_input_mode_witness :
  inputModes ∅ <> 1 /\
  exists e,
    Deploy.invoke calmWorld ∅ = ([], newCommand, inl e) /\
    errName e = "ConfigurationError" /\
    existsb isNetworkCall (events (Deploy.invoke calmWorld ∅)) = false.
Proof.
  split; [vm_compute; discriminate|].
  apply (proj2 (deploy_exactly_one_input_mode calmWorld ∅)).
  vm_compute; discriminate.
Defined.

(** ** Conflicts *)

(** C2. In an accepted invocation with tracksource set and forceoverwrite
    unset, once the tracking stores are loaded and the component set is
    resolved, a path changed both locally and remotely that the component
    set holds makes the command abort with a ConflictError naming it, and
    [componentSet.deploy] is never called. *)
Theorem deploy_conflict_aborts (w : World) (f : Flags) (t : Tracking)
    (sav : option string) (cs : ComponentSet) (p : string) :
  validateFlags w f Deploy.flagsConfig = None ->
  getBool f "tracksource" = true ->
  getBool f "forceoverwrite" = false ->
  trackingStore w = inr t ->
  getSourceApiVersion w = inr sav ->
  build w (Deploy.buildArgs (getPackageDirs w) f sav) = inr cs ->
  In p (getChanges t Local None) ->
  In p (getChanges t Remote None) ->
  hasPath cs p = true ->
  existsb isSubmit (events (Deploy.invoke w f)) = false /\
  outcome (Deploy.invoke w f) =
    inl (ConflictError (List.filter (hasPath cs) (conflicts t))) /\
  In p (List.filter (hasPath cs) (conflicts t)).
Proof.
  intros Hv Ht Hf Hs Ha Hb Hl Hr Hp.
  assert (Hin : In p (List.filter (hasPath cs) (conflicts t))).
  { apply filter_In. split; [|exact Hp]. unfold conflicts.
    apply filter_In. split; [exact Hl|].
    apply bool_decide_eq_true. now apply list_elem_of_In. }
  pose proof (tracked_is_no_replay w f Hv Ht) as Hq.
  unfold Deploy.invoke. rewrite Hv.
  unfold Deploy.run, Deploy.preChecks, Deploy.deploy,
    Deploy.deployComponentSet, filterConflictsByComponentSet.
  unfold getBool in *. rewrite Ht, Hq, Hf.
  destruct (List.filter (hasPath cs) (conflicts t)) as [|p0 ps] eqn:E;
    [destruct Hin|].
  settle; scan; auto.
Qed.

Lemma deploy_conflict_aborts_witness :
  validateFlags conflictWorld manifestTracked Deploy.flagsConfig = None /\
  existsb isSubmit (events (Deploy.invoke conflictWorld manifestTracked))
    = false /\
  outcome (Deploy.invoke conflictWorld manifestTracked) =
    inl (ConflictError
           (List.filter (hasPath sampleSet) (conflicts fooConflict))) /\
  In "classes/Foo.cls"
    (List.filter (hasPath sampleSet) (conflicts fooConflict)).
Proof.
  split; [vm_compute; reflexivity|].
  apply (deploy_conflict_aborts conflictWorld manifestTracked fooConflict
           None sampleSet "classes/Foo.cls");
    vm_compute; auto.
Defined.

(** ** Pending local deletions *)

(** C4, as stated, fails: every pending local deletion is represented in
    the resolved component set, and the warning is emitted all the same. *)
Lemma deploy_warns_on_represented_deletion :
  let w := sampleWorld false fooDeleted (inr (okResult Succeeded))
             (inr (okResult Succeeded)) in
  build w (Deploy.buildArgs (getPackageDirs w) manifestTracked None)
    = inr sampleSet /\
  forallb (hasPath sampleSet) (getChanges fooDeleted Local (Some Delete))
    = true /\
  existsb (isWarnOf "deployWontDelete")
    (events (Deploy.invoke w manifestTracked)) = true.
Proof. vm_compute. auto. Qed.

(** C4, amended.  In an accepted invocation with tracksource set that gets
    past conflict checking, the warning is emitted exactly when some local
    deletion is pending, whether or not the component set represents it;
    the warning does not stop the command, which goes on to call
    [componentSet.deploy] unless a predeploy listener throws. *)
Theorem deploy_warns_on_any_local_deletion (w : World) (f : Flags)
    (t : Tracking) (sav : option string) (cs : ComponentSet) :
  validateFlags w f Deploy.flagsConfig = None ->
  getBool f "tracksource" = true ->
  trackingStore w = inr t ->
  getSourceApiVersion w = inr sav ->
  build w (Deploy.buildArgs (getPackageDirs w) f sav) = inr cs ->
  (getBool f "forceoverwrite" = true \/
   List.filter (hasPath cs) (conflicts t) = []) ->
  existsb (isWarnOf "deployWontDelete") (events (Deploy.invoke w f))
    = negb (length (getChanges t Local (Some Delete)) =? 0)%nat /\
  (listenerThrows w "predeploy" = None ->
   existsb isSubmit (events (Deploy.invoke w f)) = true).
Proof.
  intros Hv Ht Hs Ha Hb Hc.
  pose proof (tracked_is_no_replay w f Hv Ht) as Hq.
  unfold Deploy.invoke. rewrite Hv.
  unfold Deploy.run, Deploy.preChecks, Deploy.deploy,
    Deploy.deployComponentSet, Deploy.maybeUpdateTracking,
    Deploy.formatResult, Deploy.resolveSuccess,
    filterConflictsByComponentSet.
  unfold getBool in *. rewrite Ht, Hq.
  destruct Hc as [Hc|Hc]; settle; try solve [clash]; scan; split; auto;
    discriminate.
Qed.

Lemma deploy_warns_on_any_local_deletion_witness :
  validateFlags deletedWorld manifestTracked Deploy.flagsConfig = None /\
  existsb (isWarnOf "deployWontDelete")
    (events (Deploy.invoke deletedWorld manifestTracked))
    = negb (length (getChanges fooDeleted Local (Some Delete)) =? 0)%nat /\
  (listenerThrows deletedWorld "predeploy" = None ->
   existsb isSubmit (events (Deploy.invoke deletedWorld manifestTracked))
     = true).
Proof.
  split; [vm_compute; reflexivity|].
  apply (deploy_warns_on_any_local_deletion deletedWorld manifestTracked
           fooDeleted None sampleSet);
    vm_compute; auto.
Defined.

(** ** Asynchronous deploys *)

(** C3. With wait 0 no run calls [pollStatus], and a run that returns
    hands back one request identifier and nothing else: the one that
    [componentSet.deploy] answered and that was stashed, when a component
    set is submitted, and the one of the replayed deploy, when a validated
    deploy is replayed. *)
Theorem deploy_async_returns_id (w : World) (f : Flags) (s : State) :
  waitQuantity w f = 0%N ->
  existsb isPoll (events (Deploy.run w f s)) = false /\
  forall r : CommandResult,
    outcome (Deploy.run w f s) = inr r ->
    exists i,
      r = DeployCommandAsyncResult (Some {| id := i |}) /\
      asyncDeployResult (final (Deploy.run w f s)) = Some {| id := i |} /\
      (isSet f "validateddeployrequestid" = false /\
       In (EvUpdateDeployId i) (events (Deploy.run w f s)) /\
       (exists cs o,
          In (EvDeploy cs (getUsername w) o) (events (Deploy.run w f s)) /\
          submit w cs (getUsername w) o = inr i)
       \/
       isSet f "validateddeployrequestid" = true /\
       (exists v dr,
          In (EvDeployRecentValidation v) (events (Deploy.run w f s)) /\
          recentValidation w v = inr dr /\ i = responseId dr)).
Proof.
  intros Hw.
  unfold Deploy.run, Deploy.preChecks, Deploy.deploy,
    Deploy.deployRecentValidation, Deploy.deployComponentSet,
    Deploy.maybeUpdateTracking, Deploy.formatResult, Deploy.resolveSuccess,
    filterConflictsByComponentSet.
  unfold getBool. rewrite Hw.
  settle; try solve [clash]; scan; (split; [reflexivity|]);
    intros r Hr; try discriminate; inversion Hr; subst;
    eexists; (split; [reflexivity|]); (split; [reflexivity|]);
    first
      [ left; split; [reflexivity|];
        split; [repeat (rewrite in_app_iff; cbn); tauto|];
        do 2 eexists;
        split; [repeat (rewrite in_app_iff; cbn); tauto | eassumption]
      | right; split; [reflexivity|];
        do 2 eexists;
        split; [repeat (rewrite in_app_iff; cbn); tauto|];
        split; [eassumption | reflexivity] ].
Qed.

Lemma deploy_async_returns_id_witness :
  waitQuantity calmWorld metadataAsync = 0%N /\
  existsb isPoll (events (Deploy.run calmWorld metadataAsync newCommand))
    = false /\
  outcome (Deploy.run calmWorld metadataAsync newCommand)
    = inr (DeployCommandAsyncResult (Some {| id := "0Af000000000002" |})) /\
  exists i,
    DeployCommandAsyncResult (Some {| id := "0Af000000000002" |})
      = DeployCommandAsyncResult (Some {| id := i |}) /\
    asyncDeployResult (final (Deploy.run calmWorld metadataAsync newCommand))
      = Some {| id := i |}.
Proof.
  split; [vm_compute; reflexivity|].
  pose proof (deploy_async_returns_id calmWorld metadataAsync newCommand)
    as H.
  destruct H as (Hp & Hr); [vm_compute; reflexivity|].
  split; [exact Hp|]. split; [vm_compute; reflexivity|].
  destruct (Hr (DeployCommandAsyncResult (Some {| id := "0Af000000000002" |})))
    as (i & Hi & Ha & _); [vm_compute; reflexivity|].
  exists i. split; [exact Hi | exact Ha].
Defined.

(** A replay with wait 0 hands back the request identifier of the
    replayed deploy. *)
Example scenario_replay_async :
  outcome (Deploy.invoke calmWorld replayAsync)
    = inr (DeployCommandAsyncResult
             (Some {| id := responseId (okResult Succeeded) |})) /\
  existsb isPoll (events (Deploy.invoke calmWorld replayAsync)) = false.
Proof. vm_compute. auto. Qed.

(** ** Replay of a validated deploy *)

(** C5. With validateddeployrequestid set, [deploy] builds no component
    set: apart from the warning about coverage reports of an asynchronous
    deploy, its first call is the replay by id, whose answer becomes the
    deploy result. *)
Theorem deploy_replay_skips_resolution (w : World) (f : Flags) (s : State) :
  isSet f "validateddeployrequestid" = true ->
  let i := default "" (asStr (flag f "validateddeployrequestid")) in
  let o := Deploy.deploy w f s in
  existsb isBuild (events (Deploy.run w f s)) = false /\
  componentSet (final o) = componentSet s /\
  events o =
    (if (waitQuantity w f =? 0)%N &&
        (isSet f "coverageformatters" || isSet f "junit")
     then [EvWarn "asyncCoverageJunitWarning"] else []) ++
    EvDeployRecentValidation i ::
    (match recentValidation w i with
     | inr _ => [EvEmit "postdeploy"]
     | inl _ => []
     end) /\
  match recentValidation w i with
  | inr r => deployResult (final o) = Some r
  | inl e => outcome o = inl e
  end.
Proof.
  intros H i o. subst i o.
  unfold Deploy.run, Deploy.preChecks, Deploy.deploy,
    Deploy.deployRecentValidation, Deploy.maybeUpdateTracking,
    Deploy.formatResult, Deploy.resolveSuccess.
  unfold getBool. rewrite H.
  settle; try solve [clash]; scan; repeat split; reflexivity.
Qed.

Lemma deploy_replay_skips_resolution_witness :
  isSet replayAsync "validateddeployrequestid" = true /\
  existsb isBuild (events (Deploy.run calmWorld replayAsync newCommand))
    = false /\
  events (Deploy.deploy calmWorld replayAsync newCommand)
    = [EvDeployRecentValidation "0Af000000000001"; EvEmit "postdeploy"] /\
  deployResult (final (Deploy.deploy calmWorld replayAsync newCommand))
    = Some (okResult Succeeded).
Proof.
  split; [vm_compute; reflexivity|].
  pose proof (deploy_replay_skips_resolution calmWorld replayAsync newCommand)
    as H.
  destruct H as (Hb & _ & He & Hr); [vm_compute; reflexivity|].
  split; [exact Hb|]. split; [exact He | exact Hr].
Defined.

(** ** When the deploy result is populated *)

(** C8, as stated, fails on a replay with wait 0: the deploy result is
    populated and postdeploy is emitted although no status poll was ever
    issued. *)
Lemma replay_async_populates_result :
  waitQuantity calmWorld replayAsync = 0%N /\
  populated (final (Deploy.invoke calmWorld replayAsync)) = true /\
  existsb isPoll (events (Deploy.invoke calmWorld replayAsync)) = false /\
  existsb (isEmitOf "postdeploy")
    (events (Deploy.invoke calmWorld replayAsync)) = true.
Proof. vm_compute. auto. Qed.

(** C8, amended.  After [deploy], run on a command that has no result yet,
    the deploy result is populated exactly when a status poll returned a
    result or the replay by id did; postdeploy is emitted exactly when the
    result is populated; and a submission of a component set with wait 0
    leaves it unpopulated. *)
Theorem deploy_result_populated_iff (w : World) (f : Flags) (s : State) :
  deployResult s = None ->
  populated (final (Deploy.deploy w f s))
    = existsb (pollReturned w) (events (Deploy.deploy w f s)) ||
      existsb (replayReturned w) (events (Deploy.deploy w f s)) /\
  existsb (isEmitOf "postdeploy") (events (Deploy.deploy w f s))
    = populated (final (Deploy.deploy w f s)) /\
  (isSet f "validateddeployrequestid" = false ->
   waitQuantity w f = 0%N ->
   deployResult (final (Deploy.deploy w f s)) = None).
Proof.
  intros H.
  unfold Deploy.deploy, Deploy.deployRecentValidation,
    Deploy.deployComponentSet, filterConflictsByComponentSet, populated.
  unfold getBool.
  settle; try solve [clash]; scan; use_answers; cbn; scan;
    repeat split; intros; try reflexivity; try discriminate; try clash.
Qed.

Lemma deploy_result_populated_iff_witness :
  deployResult newCommand = None /\
  existsb (pollReturned calmWorld)
    (events (Deploy.deploy calmWorld metadataSync newCommand)) = true /\
  populated (final (Deploy.deploy calmWorld metadataSync newCommand)) = true /\
  existsb (isEmitOf "postdeploy")
    (events (Deploy.deploy calmWorld metadataSync newCommand)) = true.
Proof.
  split; [reflexivity|].
  destruct (deploy_result_populated_iff calmWorld metadataSync newCommand)
    as (Hp & He & _); [reflexivity|].
  assert (Hr : existsb (pollReturned calmWorld)
                 (events (Deploy.deploy calmWorld metadataSync newCommand))
               = true) by (vm_compute; reflexivity).
  rewrite Hr in Hp. cbn [orb] in Hp.
  split; [exact Hr|]. split; [exact Hp|]. now rewrite He.
Defined.

(** ** Machine output mode *)

(** C7. In JSON output mode neither command renders progress or calls a
    formatter's display, and the result is still returned: formatting
    fails only where the results directory or the reports do, and hands
    back the rendering of the stored async status (deploy with wait 0) or
    of the stored DeployResult.  The same invocation in human output mode
    has the same outcome followed by that of the display of the result,
    which may throw. *)
Theorem json_mode_renders_nothing (w : World) (f : Flags) (s : State) :
  isJsonOutput w = true ->
  (existsb isDisplay (events (Deploy.run w f s)) = false /\
   existsb isDisplay (events (Report.run w f s)) = false) /\
  (outcome (Deploy.formatResult w f s) =
     match resolveOutputDir w (asArr (flag f "coverageformatters"))
             (isSet f "junit") (asStr (flag f "resultsdir"))
             (responseId <$> deployResult s) false with
     | inl e => inl e
     | inr dir =>
         if isAsync s
         then inr (DeployCommandAsyncResult (asyncDeployResult s))
         else match createReportsOutcome w (deployResult s) dir with
              | Some e => inl e
              | None => inr (DeployCommandResult (deployResult s))
              end
     end /\
   outcome (Report.formatResult w f s) =
     match createReportsOutcome w (deployResult s) (resultsDir s) with
     | Some e => inl e
     | None => inr (DeployReportCommandResult (deployResult s))
     end) /\
  (forall r : CommandResult,
     outcome (Deploy.run w f s) = inr r ->
     r = if (waitQuantity w f =? 0)%N
         then DeployCommandAsyncResult
                (asyncDeployResult (final (Deploy.run w f s)))
         else DeployCommandResult (deployResult (final (Deploy.run w f s)))) /\
  (forall r : CommandResult,
     outcome (Report.run w f s) = inr r ->
     r = DeployReportCommandResult (deployResult (final (Report.run w f s)))) /\
  outcome (Deploy.run (withJsonOutput false w) f s) =
    match outcome (Deploy.run w f s) with
    | inl e => inl e
    | inr r => match displayOutcome w r with
               | Some e => inl e
               | None => inr r
               end
    end /\
  outcome (Report.run (withJsonOutput false w) f s) =
    match outcome (Report.run w f s) with
    | inl e => inl e
    | inr r => match displayOutcome w r with
               | Some e => inl e
               | None => inr r
               end
    end.
Proof.
  intros Hj.
  unfold Deploy.run, Deploy.preChecks, Deploy.deploy,
    Deploy.deployRecentValidation, Deploy.deployComponentSet,
    Deploy.maybeUpdateTracking, Deploy.formatResult, Deploy.resolveSuccess,
    Report.run, Report.doReport, Report.formatResult, Report.resolveSuccess,
    filterConflictsByComponentSet, getBool.
  change (waitQuantity (withJsonOutput false w) f) with (waitQuantity w f).
  rewrite Hj.
  split; [split|split; [split|split; [|split; [|split]]]].
  - settle; try solve [clash]; scan; reflexivity.
  - settle; try solve [clash]; scan; reflexivity.
  - settle; try solve [clash]; reflexivity.
  - settle; try solve [clash]; reflexivity.
  - intros r. settle; try solve [clash]; intros Hr; try discriminate;
      inversion Hr; reflexivity.
  - intros r. settle; try solve [clash]; intros Hr; try discriminate;
      inversion Hr; reflexivity.
  - settle; try solve [clash]; unfold getJson in *; cbn in *;
      try reflexivity; try congruence.
  - settle; try solve [clash]; unfold getJson in *; cbn in *;
      try reflexivity; try congruence.
Qed.

Lemma json_mode_renders_nothing_witness :
  isJsonOutput jsonFailedWorld = true /\
  existsb isDisplay
    (events (Deploy.run jsonFailedWorld metadataSync newCommand)) = false /\
  outcome (Deploy.run jsonFailedWorld metadataSync newCommand)
    = inr (DeployCommandResult (Some (okResult Failed))) /\
  outcome
    (Deploy.run (withJsonOutput false jsonFailedWorld) metadataSync newCommand)
    = inl deployFailed.
Proof.
  split; [reflexivity|].
  pose proof (json_mode_renders_nothing jsonFailedWorld metadataSync
                newCommand) as H.
  destruct H as ((Hd & _) & _ & Hr & _ & Hh & _); [reflexivity|].
  assert (Ho : outcome (Deploy.run jsonFailedWorld metadataSync newCommand)
               = inr (DeployCommandResult (Some (okResult Failed))))
    by (vm_compute; reflexivity).
  split; [exact Hd|]. split; [exact Ho|].
  rewrite Hh, Ho. vm_compute; reflexivity.
Defined.

(** ** Polling in the report command *)

Lemma prefix_append (a b : string) :
  String.prefix a b = true <-> exists post, b = a +:+ post.
Proof.
  revert b. induction a as [|c a IH]; intros [|c' b]; cbn.
  - split; [intros _; now exists "" | reflexivity].
  - split; [intros _; now exists (String c' b) | reflexivity].
  - split; [discriminate | intros [post H]; discriminate].
  - destruct (Ascii.ascii_dec c c') as [->|Hne].
    + rewrite IH. split; intros [post H]; exists post.
      * now rewrite H.
      * now inversion H.
    + split; [discriminate|]. intros [post H]. inversion H. congruence.
Qed.

Lemma includes_nil (needle : string) :
  Report.includes needle "" = String.prefix needle "".
Proof. cbn. apply orb_false_r. Qed.

Lemma includes_cons (needle : string) (c : Ascii.ascii) (hay : string) :
  Report.includes needle (String c hay)
  = String.prefix needle (String c hay) || Report.includes needle hay.
Proof. reflexivity. Qed.

Lemma includes_spec (needle hay : string) :
  Report.includes needle hay = true <->
  exists pre post, hay = pre +:+ needle +:+ post.
Proof.
  induction hay as [|c hay IH].
  - rewrite includes_nil, prefix_append. split.
    + intros [post H]. exists "", post. exact H.
    + intros ([|c pre] & post & H); [now exists post | discriminate].
  - rewrite includes_cons, orb_true_iff, IH, prefix_append. split.
    + intros [[post H]|(pre & post & H)].
      * exists "", post. exact H.
      * exists (String c pre), post. cbn. now rewrite H.
    + intros ([|c' pre] & post & H).
      * left. now exists post.
      * right. cbn in H. inversion H. now exists pre, post.
Qed.

(** C6. When the status poll of [doReport] throws, the status is fetched
    all the same.  A thrown Error whose message holds the wording "The
    client has timed out" is swallowed: [doReport] goes on with the
    fetched status.  Every other thrown value makes [doReport] fail with
    it.  In both cases a status fetch that throws fails [doReport] with
    its own error. *)
Theorem report_recovers_client_timeout_only (w : World) (f : Flags)
    (s : State) (i : string) (e : Err) :
  resolveDeployId w (asStr (flag f "jobid")) = inr i ->
  pollStatus w i (waitQuantity w f) = inl e ->
  existsb isPoll (events (Report.doReport w f s)) = true ->
  In (EvReport i) (events (Report.doReport w f s)) /\
  match report w i with
  | inl _ => True
  | inr r => deployResult (final (Report.doReport w f s)) = Some r
  end /\
  (isError e = true /\
   (exists pre post,
      errMessage e = pre +:+ "The client has timed out" +:+ post) ->
   outcome (Report.doReport w f s) =
     match report w i with
     | inl e' => inl e'
     | inr _ => inr tt
     end) /\
  (~ (isError e = true /\
      exists pre post,
        errMessage e = pre +:+ "The client has timed out" +:+ post) ->
   outcome (Report.doReport w f s) =
     match report w i with
     | inl e' => inl e'
     | inr _ => inl e
     end).
Proof.
  intros Hi Hp.
  assert (Hc : Report.clientTimedOut e = true <->
               isError e = true /\
               exists pre post,
                 errMessage e = pre +:+ "The client has timed out" +:+ post).
  { unfold Report.clientTimedOut.
    rewrite andb_true_iff, includes_spec. reflexivity. }
  unfold Report.doReport, getBool. rewrite Hi.
  destruct (Report.clientTimedOut e) eqn:Ht.
  - assert (Hyes := proj1 Hc eq_refl).
    settle; try solve [clash]; scan; intros Hr; try discriminate;
      repeat apply conj; try reflexivity; try tauto;
      repeat (rewrite in_app_iff; cbn); tauto.
  - assert (Hno : ~ (isError e = true /\
                     exists pre post,
                       errMessage e
                       = pre +:+ "The client has timed out" +:+ post))
      by (intros H; apply Hc in H; discriminate).
    settle; try solve [clash]; scan; intros Hr; try discriminate;
      repeat apply conj; try reflexivity; try tauto;
      repeat (rewrite in_app_iff; cbn); tauto.
Qed.

Lemma report_recovers_client_timeout_only_witness :
  (pollStatus slowWorld "0Af000000000009" (waitQuantity slowWorld reportJob)
     = inl timedOut /\
   outcome (Report.doReport slowWorld reportJob newCommand) = inr tt /\
   deployResult (final (Report.doReport slowWorld reportJob newCommand))
     = Some (okResult InProgress)) /\
  (pollStatus brokenWorld "0Af000000000009"
     (waitQuantity brokenWorld reportJob) = inl hangUp /\
   outcome (Report.doReport brokenWorld reportJob newCommand) = inl hangUp /\
   In (EvReport "0Af000000000009")
     (events (Report.doReport brokenWorld reportJob newCommand))).
Proof.
  split.
  - split; [vm_compute; reflexivity|].
    pose proof (report_recovers_client_timeout_only slowWorld reportJob
                  newCommand "0Af000000000009" timedOut) as H.
    destruct H as (_ & Hr & Hyes & _);
      [vm_compute; reflexivity | vm_compute; reflexivity
       | vm_compute; reflexivity |].
    split; [|exact Hr].
    apply Hyes. split; [reflexivity|].
    exists "Metadata API request failed: ", ".". reflexivity.
  - split; [vm_compute; reflexivity|].
    pose proof (report_recovers_client_timeout_only brokenWorld reportJob
                  newCommand "0Af000000000009" hangUp) as H.
    destruct H as (Hin & _ & _ & Hno);
      [vm_compute; reflexivity | vm_compute; reflexivity
       | vm_compute; reflexivity |].
    split; [|exact Hin].
    apply Hno. intros [_ Hw]. apply includes_spec in Hw.
    vm_compute in Hw. discriminate.
Defined.

(** ** The report of a failed deploy *)

(** C9. The report of a deploy of status Failed, in human output mode.
    The flags are accepted, the status is fetched and [resolveSuccess]
    changes nothing; still the invocation ends with the error that the
    display of the result throws, hence with a non-zero exit status,
    against the note on [resolveSuccess] that any DeployResult status is a
    success. *)
Theorem report_of_failed_deploy_fails :
  isJsonOutput failedWorld = false /\
  validateFlags failedWorld reportJob Report.flagsConfig = None /\
  report failedWorld "0Af000000000009" = inr (okResult Failed) /\
  outcome (Report.doReport failedWorld reportJob newCommand) = inr tt /\
  deployResult (final (Report.doReport failedWorld reportJob newCommand))
    = Some (okResult Failed) /\
  exitCode (final (Report.invoke failedWorld reportJob)) = 0%Z /\
  outcome (Report.invoke failedWorld reportJob) = inl mdapiDeployFailed /\
  exitStatus (Report.invoke failedWorld reportJob) = 1%Z.
Proof. vm_compute. repeat split. Qed.

(** In JSON output mode a failed deploy is reported with exit status 0;
    a wait of 0 is rejected with the flags. *)
Example scenario_report_failed :
  outcome (Report.invoke jsonFailedWorld reportJob)
    = inr (DeployReportCommandResult (Some (okResult Failed))) /\
  status (okResult Failed) = Failed /\
  exitStatus (Report.invoke jsonFailedWorld reportJob) = 0%Z /\
  exitStatus
    (Report.invoke jsonFailedWorld
       {[ "jobid" := VStr "0Af000000000009"; "wait" := VMinutes 0 ]}) = 1%Z.
Proof. vm_compute. auto. Qed.

(** ** The predeploy event *)





(** * Further properties of the two commands *)

Lemma in_optional (b : bool) (ev ev' : Event) :
  In ev' (optional b ev) <-> b = true /\ ev' = ev.
Proof. destruct b; unfold optional; cbn; intuition congruence. Qed.

Lemma countOf_app (P : Event -> bool) (l l' : list Event) :
  countOf P (l ++ l') = (countOf P l + countOf P l')%nat.
Proof. unfold countOf. now rewrite List.filter_app, List.length_app. Qed.

Lemma countOf_optional (P : Event -> bool) (b : bool) (ev : Event) :
  countOf P (optional b ev) = if b && P ev then 1%nat else 0%nat.
Proof. destruct b; unfold optional, countOf; cbn; now destruct (P ev). Qed.

Lemma countOf_cons (P : Event -> bool) (ev : Event) (l : list Event) :
  countOf P (ev :: l) = ((if P ev then 1 else 0) + countOf P l)%nat.
Proof. unfold countOf; cbn. now destruct (P ev). Qed.

Lemma countOf_nil (P : Event -> bool) : countOf P [] = 0%nat.
Proof. reflexivity. Qed.

(** Count the entries of a class in a log some of whose entries are
    conditional. *)
Ltac tally :=
  repeat (progress
            (rewrite ?countOf_app, ?countOf_cons, ?countOf_optional,
               ?countOf_nil, ?andb_false_r, ?andb_true_r; cbn)).

(** Take apart a membership in a log. *)
Ltac in_log :=
  repeat match goal with
         | H : _ \/ _ |- _ => destruct H as [H|H]
         | H : False |- _ => destruct H
         | H : In _ (_ ++ _) |- _ => apply in_app_or in H
         | H : In _ (optional _ _) |- _ =>
             apply in_optional in H; destruct H as [_ H]
         | H : In _ (_ :: _) |- _ => destruct H as [H|H]
         | H : In _ [] |- _ => destruct H
         end; try discriminate.

Ltac unfold_deploy :=
  unfold Deploy.run, Deploy.preChecks, Deploy.deploy,
    Deploy.deployRecentValidation, Deploy.deployComponentSet,
    Deploy.maybeUpdateTracking, Deploy.formatResult, Deploy.resolveSuccess,
    filterConflictsByComponentSet, getBool in *.

Ltac unfold_report :=
  unfold Report.run, Report.doReport, Report.formatResult,
    Report.resolveSuccess, getBool in *.

(** ** Access to the tracking stores *)

(** X1. Without tracksource a run never touches the tracking stores: no
    setup, no conflict filter, no query for local deletions, no update.
    With tracksource the setup is the first call of the run, and when it
    throws the run fails with its error, has called nothing else and has
    assigned no field. *)
Theorem deploy_tracking_only_on_request (w : World) (f : Flags) (s : State) :
  (isSet f "tracksource" = false ->
   existsb isTrackingCall (events (Deploy.run w f s)) = false) /\
  (isSet f "tracksource" = true ->
   exists rest, events (Deploy.run w f s) = EvTrackingSetup :: rest) /\
  (forall e : Err,
     isSet f "tracksource" = true ->
     trackingStore w = inl e ->
     Deploy.run w f s = ([EvTrackingSetup], s, inl e)).
Proof.
  unfold_deploy. split; [|split].
  - intros H. rewrite H. settle; try solve [clash]; scan; reflexivity.
  - intros H. rewrite H. settle; try solve [clash]; eexists; reflexivity.
  - intros e H He. rewrite H. settle. reflexivity.
Qed.

Lemma deploy_tracking_only_on_request_witness :
  isSet metadataAsync "tracksource" = false /\
  existsb isTrackingCall
    (events (Deploy.run calmWorld metadataAsync newCommand))
    = false.
Proof.
  split; [vm_compute; reflexivity|].
  apply (proj1 (deploy_tracking_only_on_request calmWorld metadataAsync
                  newCommand)).
  vm_compute; reflexivity.
Defined.

(** X2. The conflict filter is called only by a deploy of a component set
    that tracks source and does not force the overwrite; with
    forceoverwrite set it is never called, whatever the stores hold. *)
Theorem deploy_conflict_filter_guard (w : World) (f : Flags) (s : State) :
  existsb isFilterConflicts (events (Deploy.run w f s)) = true ->
  isSet f "tracksource" = true /\
  isSet f "forceoverwrite" = false /\
  isSet f "validateddeployrequestid" = false.
Proof.
  unfold_deploy.
  settle; try solve [clash]; scan; intros H; try discriminate; auto.
Qed.

Lemma deploy_conflict_filter_guard_witness :
  existsb isFilterConflicts
    (events (Deploy.run conflictWorld manifestTracked newCommand)) = true /\
  isSet manifestTracked "tracksource" = true /\
  isSet manifestTracked "forceoverwrite" = false /\
  isSet manifestTracked "validateddeployrequestid" = false.
Proof.
  split; [vm_compute; reflexivity|].
  apply (deploy_conflict_filter_guard conflictWorld manifestTracked newCommand).
  vm_compute; reflexivity.
Defined.

(** ** What is submitted *)

(** X3. Whatever [componentSet.deploy] is called with in a run: the set is
    the one the builder answered for the arguments of [deploy], the user
    is the org's, rest is what [isRestDeploy] said, rollbackOnError is the
    negation of ignoreerrors, and testLevel and runTests are left out when
    their flags are unset. *)
Theorem deploy_submits_what_was_resolved (w : World) (f : Flags) (s : State)
    (cs : ComponentSet) (u : string) (o : ApiOptions) :
  In (EvDeploy cs u o) (events (Deploy.run w f s)) ->
  u = getUsername w /\
  rest o = isRestDeploy w /\
  rollbackOnError o = negb (isSet f "ignoreerrors") /\
  (isSet f "testlevel" = false -> testLevel o = None) /\
  (isSet f "runtests" = false -> runTests o = None) /\
  exists sav,
    getSourceApiVersion w = inr sav /\
    build w (Deploy.buildArgs (getPackageDirs w) f sav) = inr cs.
Proof.
  unfold_deploy.
  settle; try solve [clash]; intros H; in_log;
    inversion H; subst; unfold Deploy.apiOptions, getBool; cbn;
    repeat apply conj; try reflexivity;
    try (intros ->; reflexivity);
    eexists; (split; [reflexivity | eassumption]).
Qed.

Lemma deploy_submits_what_was_resolved_witness :
  In (EvDeploy sampleSet "user@example.com"
        (Deploy.apiOptions metadataSync newCommand))
    (events (Deploy.run calmWorld metadataSync newCommand)) /\
  rollbackOnError (Deploy.apiOptions metadataSync newCommand) = true /\
  testLevel (Deploy.apiOptions metadataSync newCommand) = None.
Proof.
  assert (H : In (EvDeploy sampleSet "user@example.com"
                    (Deploy.apiOptions metadataSync newCommand))
                (events (Deploy.run calmWorld metadataSync newCommand)))
    by (vm_compute; auto 10).
  split; [exact H|].
  destruct (deploy_submits_what_was_resolved calmWorld metadataSync newCommand
              _ _ _ H) as (_ & _ & Hr & Ht & _).
  split; [exact Hr | apply Ht; vm_compute; reflexivity].
Defined.

(** X4. When [deploy] polls, it polls the identifier it has already
    stashed and stored as the async status, for the wait of the flags,
    which is not 0; a poll that throws makes [deploy] fail with that error,
    leaves the deploy result as it was and emits no postdeploy. *)
Theorem deploy_poll_keeps_request_id (w : World) (f : Flags) (s : State)
    (i : string) (q : N) :
  In (EvPollStatus i q) (events (Deploy.deploy w f s)) ->
  q = waitQuantity w f /\
  (q =? 0)%N = false /\
  In (EvUpdateDeployId i) (events (Deploy.deploy w f s)) /\
  asyncDeployResult (final (Deploy.deploy w f s)) = Some {| id := i |} /\
  forall e : Err,
    pollStatus w i q = inl e ->
    outcome (Deploy.deploy w f s) = inl e /\
    deployResult (final (Deploy.deploy w f s)) = deployResult s /\
    existsb (isEmitOf "postdeploy") (events (Deploy.deploy w f s)) = false.
Proof.
  unfold_deploy.
  settle; try solve [clash]; intros H; in_log;
    inversion H; subst; scan;
    (split; [reflexivity|]); (split; [assumption|]);
    (split; [repeat (rewrite in_app_iff; cbn); tauto|]);
    (split; [reflexivity|]);
    intros ? He; try congruence;
    repeat apply conj; try reflexivity; congruence.
Qed.

Lemma deploy_poll_keeps_request_id_witness :
  In (EvPollStatus "0Af000000000002" 33)
    (events (Deploy.deploy slowWorld metadataSync newCommand)) /\
  asyncDeployResult (final (Deploy.deploy slowWorld metadataSync newCommand))
    = Some {| id := "0Af000000000002" |} /\
  outcome (Deploy.deploy slowWorld metadataSync newCommand) = inl timedOut.
Proof.
  assert (H : In (EvPollStatus "0Af000000000002" 33)
                (events (Deploy.deploy slowWorld metadataSync newCommand)))
    by (vm_compute; auto 10).
  split; [exact H|].
  destruct (deploy_poll_keeps_request_id slowWorld metadataSync newCommand
              _ _ H) as (_ & _ & _ & Ha & He).
  split; [exact Ha|].
  apply (He timedOut). vm_compute; reflexivity.
Defined.

(** X5. With a wait other than 0, a run that returns hands back a
    DeployResult, the very one that the status poll of the run or its
    replay by id answered, after emitting postdeploy and creating the
    requested reports. *)
Theorem deploy_sync_returns_result (w : World) (f : Flags) (s : State)
    (r : CommandResult) :
  (waitQuantity w f =? 0)%N = false ->
  outcome (Deploy.run w f s) = inr r ->
  exists dr : DeployResult,
    r = DeployCommandResult (Some dr) /\
    deployResult (final (Deploy.run w f s)) = Some dr /\
    ((exists i q,
        In (EvPollStatus i q) (events (Deploy.run w f s)) /\
        pollStatus w i q = inr dr) \/
     (exists i,
        In (EvDeployRecentValidation i) (events (Deploy.run w f s)) /\
        recentValidation w i = inr dr)) /\
    existsb (isEmitOf "postdeploy") (events (Deploy.run w f s)) = true /\
    existsb isCreateReports (events (Deploy.run w f s)) = true.
Proof.
  intros Hw. unfold_deploy. rewrite Hw.
  settle; try solve [clash]; intros H; try discriminate;
    inversion H; subst; eexists; scan;
    (split; [reflexivity|]); (split; [reflexivity|]);
    (split; [|split; reflexivity]);
    first
      [ left; do 2 eexists;
        split; [repeat (rewrite in_app_iff; cbn); tauto | eassumption]
      | right; eexists;
        split; [repeat (rewrite in_app_iff; cbn); tauto | eassumption] ].
Qed.

Lemma deploy_sync_returns_result_witness :
  (waitQuantity jsonFailedWorld metadataSync =? 0)%N = false /\
  pollStatus jsonFailedWorld "0Af000000000002" 33 = inr (okResult Failed) /\
  exists dr : DeployResult,
    DeployCommandResult (Some (okResult Failed))
      = DeployCommandResult (Some dr) /\
    deployResult (final (Deploy.run jsonFailedWorld metadataSync newCommand))
      = Some dr.
Proof.
  split; [vm_compute; reflexivity|].
  split; [vm_compute; reflexivity|].
  destruct (deploy_sync_returns_result jsonFailedWorld metadataSync newCommand
              (DeployCommandResult (Some (okResult Failed))))
    as (dr & Hr & Hd & _); [vm_compute; reflexivity.. |].
  exists dr. split; [exact Hr | exact Hd].
Defined.

(** ** Updating the tracking stores *)

(** X6. The tracking stores are updated only with tracksource set.  An
    update that throws makes the run fail with its error before anything
    is formatted: the results directory is not resolved, no report is
    created and nothing is displayed. *)
Theorem deploy_tracking_update_is_fatal (w : World) (f : Flags) (s : State) :
  existsb isUpdateTracking (events (Deploy.run w f s)) = true ->
  isSet f "tracksource" = true /\
  forall e : Err,
    updateTrackingOutcome w (deployResult (final (Deploy.run w f s)))
      = Some e ->
    outcome (Deploy.run w f s) = inl e /\
    resultsDir (final (Deploy.run w f s)) = resultsDir s /\
    existsb isFormatterDisplay (events (Deploy.run w f s)) = false /\
    existsb isCreateReports (events (Deploy.run w f s)) = false.
Proof.
  unfold_deploy.
  settle; try solve [clash]; scan; intros H; try discriminate;
    (split; [reflexivity|]); intros ? He; try congruence;
    repeat apply conj; try reflexivity; congruence.
Qed.

Lemma deploy_tracking_update_is_fatal_witness :
  existsb isUpdateTracking
    (events (Deploy.run staleStoreWorld manifestTracked newCommand)) = true /\
  outcome (Deploy.run staleStoreWorld manifestTracked newCommand)
    = inl listenerError /\
  existsb isFormatterDisplay
    (events (Deploy.run staleStoreWorld manifestTracked newCommand)) = false.
Proof.
  assert (Hu : existsb isUpdateTracking
                 (events (Deploy.run staleStoreWorld manifestTracked
                            newCommand)) = true)
    by (vm_compute; reflexivity).
  split; [exact Hu|].
  destruct (deploy_tracking_update_is_fatal staleStoreWorld manifestTracked
              newCommand Hu) as (_ & H).
  destruct (H listenerError) as (Ho & _ & Hd & _); [reflexivity|].
  split; [exact Ho | exact Hd].
Defined.

(** X7. A tracked submission of a component set with wait 0, once the
    submission has answered and the identifier is stashed, goes on to
    update the tracking stores, and does so without a DeployResult: the
    update is called with an undefined result, and its error, if any, is
    the run's. *)
Theorem deploy_async_tracks_without_result (w : World) (f : Flags)
    (s : State) (i : string) :
  isSet f "tracksource" = true ->
  (waitQuantity w f =? 0)%N = true ->
  deployResult s = None ->
  In (EvUpdateDeployId i) (events (Deploy.run w f s)) ->
  existsb isUpdateTracking (events (Deploy.run w f s)) = true /\
  deployResult (final (Deploy.run w f s)) = None /\
  forall e : Err,
    updateTrackingOutcome w None = Some e ->
    outcome (Deploy.run w f s) = inl e.
Proof.
  intros Ht Hw Hs. unfold_deploy. rewrite Ht, Hw.
  settle; try solve [clash]; scan; intros H; in_log;
    (split; [reflexivity|]); (split; [assumption|]);
    intros ? He; congruence.
Qed.

Lemma deploy_async_tracks_without_result_witness :
  In (EvUpdateDeployId "0Af000000000002")
    (events (Deploy.run staleStoreWorld sourcepathTrackedAsync newCommand)) /\
  existsb isUpdateTracking
    (events (Deploy.run staleStoreWorld sourcepathTrackedAsync newCommand))
    = true /\
  deployResult
    (final (Deploy.run staleStoreWorld sourcepathTrackedAsync newCommand))
    = None /\
  outcome (Deploy.run staleStoreWorld sourcepathTrackedAsync newCommand)
    = inl listenerError.
Proof.
  assert (Hin : In (EvUpdateDeployId "0Af000000000002")
                  (events (Deploy.run staleStoreWorld sourcepathTrackedAsync
                             newCommand)))
    by (vm_compute; auto 20).
  split; [exact Hin|].
  destruct (deploy_async_tracks_without_result staleStoreWorld
              sourcepathTrackedAsync newCommand "0Af000000000002")
    as (Hu & Hd & He);
    [vm_compute; reflexivity | vm_compute; reflexivity | reflexivity
     | exact Hin |].
  split; [exact Hu|]. split; [exact Hd | apply He; reflexivity].
Defined.

(** ** Lifecycle listeners *)

(** X8. A predeploy listener that throws vetoes the deploy:
    [componentSet.deploy] is not called, no request identifier is stored,
    the tracking stores are not updated, and the run fails with the
    listener's error. *)
Theorem predeploy_listener_vetoes (w : World) (f : Flags) (s : State)
    (e : Err) :
  listenerThrows w "predeploy" = Some e ->
  existsb isSubmit (events (Deploy.run w f s)) = false /\
  (existsb (isEmitOf "predeploy") (events (Deploy.run w f s)) = true ->
   outcome (Deploy.run w f s) = inl e /\
   asyncDeployResult (final (Deploy.run w f s)) = asyncDeployResult s /\
   existsb isUpdateTracking (events (Deploy.run w f s)) = false).
Proof.
  intros He. unfold_deploy.
  settle; try solve [clash]; scan; (split; [reflexivity|]);
    intros H; try discriminate; repeat apply conj; reflexivity.
Qed.

Lemma predeploy_listener_vetoes_witness :
  listenerThrows vetoWorld "predeploy" = Some listenerError /\
  existsb isSubmit (events (Deploy.run vetoWorld metadataSync newCommand))
    = false /\
  outcome (Deploy.run vetoWorld metadataSync newCommand) = inl listenerError.
Proof.
  split; [vm_compute; reflexivity|].
  destruct (predeploy_listener_vetoes vetoWorld metadataSync newCommand
              listenerError) as (Hs & Hv); [vm_compute; reflexivity|].
  split; [exact Hs|]. apply Hv. vm_compute; reflexivity.
Defined.

(** X9. A postdeploy listener that throws makes the run fail with its
    error although the deploy itself is over and its result is stored: the
    tracking stores are not updated and nothing is displayed. *)
Theorem postdeploy_listener_is_fatal (w : World) (f : Flags) (s : State)
    (e : Err) :
  listenerThrows w "postdeploy" = Some e ->
  existsb (isEmitOf "postdeploy") (events (Deploy.run w f s)) = true ->
  outcome (Deploy.run w f s) = inl e /\
  populated (final (Deploy.run w f s)) = true /\
  existsb isUpdateTracking (events (Deploy.run w f s)) = false /\
  existsb isFormatterDisplay (events (Deploy.run w f s)) = false.
Proof.
  intros He. unfold_deploy. unfold populated.
  settle; try solve [clash]; scan; intros H; try discriminate;
    repeat apply conj; reflexivity.
Qed.

Lemma postdeploy_listener_is_fatal_witness :
  listenerThrows postVetoWorld "postdeploy" = Some listenerError /\
  outcome (Deploy.run postVetoWorld metadataSync newCommand)
    = inl listenerError /\
  populated (final (Deploy.run postVetoWorld metadataSync newCommand)) = true.
Proof.
  split; [vm_compute; reflexivity|].
  destruct (postdeploy_listener_is_fatal postVetoWorld metadataSync newCommand
              listenerError) as (Ho & Hp & _); [vm_compute; reflexivity.. |].
  split; [exact Ho | exact Hp].
Defined.

(** ** One request per run *)

(** X10. A run submits at most once, polls at most once and replays at
    most once; it polls only what it submitted, and it never both replays
    and submits. *)
Theorem deploy_one_transport_path (w : World) (f : Flags) (s : State) :
  (countOf isSubmit (events (Deploy.run w f s)) <= 1)%nat /\
  (countOf isPoll (events (Deploy.run w f s)) <= 1)%nat /\
  (countOf isReplay (events (Deploy.run w f s)) <= 1)%nat /\
  (countOf isPoll (events (Deploy.run w f s))
   <= countOf isSubmit (events (Deploy.run w f s)))%nat /\
  (countOf isReplay (events (Deploy.run w f s))
   + countOf isSubmit (events (Deploy.run w f s)) <= 1)%nat.
Proof.
  unfold_deploy.
  settle; try solve [clash]; tally; repeat apply conj; lia.
Qed.

(** X11. [deploy] warns that coverage and JUnit reports need a completed
    deploy exactly when the wait is 0 and one of coverageformatters and
    junit is set; the warning is then its first call, whatever fails
    later. *)
Theorem deploy_async_report_warning (w : World) (f : Flags) (s : State) :
  existsb (isWarnOf "asyncCoverageJunitWarning") (events (Deploy.deploy w f s))
    = (waitQuantity w f =? 0)%N &&
      (isSet f "coverageformatters" || isSet f "junit") /\
  ((waitQuantity w f =? 0)%N &&
   (isSet f "coverageformatters" || isSet f "junit") = true ->
   exists rest,
     events (Deploy.deploy w f s)
       = EvWarn "asyncCoverageJunitWarning" :: rest).
Proof.
  unfold_deploy.
  settle; try solve [clash]; scan; (split; [reflexivity|]);
    intros H; rewrite H; unfold optional; cbn; eexists; reflexivity.
Qed.

Lemma deploy_async_report_warning_witness :
  (waitQuantity calmWorld metadataAsyncJunit =? 0)%N &&
  (isSet metadataAsyncJunit "coverageformatters" ||
   isSet metadataAsyncJunit "junit") = true /\
  exists rest,
    events (Deploy.deploy calmWorld metadataAsyncJunit newCommand)
      = EvWarn "asyncCoverageJunitWarning" :: rest.
Proof.
  split; [vm_compute; reflexivity|].
  apply (proj2 (deploy_async_report_warning calmWorld metadataAsyncJunit
                  newCommand)).
  vm_compute; reflexivity.
Defined.

(** ** The report command *)

(** X12. [doReport] builds a component set only when verbose is set.
    Once the results directory is resolved (a resolution that throws is
    fatal before anything is built), it builds from the package
    directories of the project, or from no source path at all when the
    project cannot be resolved (that error is ignored); a builder that
    throws is fatal, before any poll or status fetch. *)
Theorem report_builds_only_when_verbose (w : World) (f : Flags) (s : State)
    (i : string) :
  resolveDeployId w (asStr (flag f "jobid")) = inr i ->
  (isSet f "verbose" = false ->
   existsb isBuild (events (Report.doReport w f s)) = false /\
   componentSet (final (Report.doReport w f s)) = componentSet s) /\
  (isSet f "verbose" = true ->
   match resolveOutputDir w (asArr (flag f "coverageformatters"))
           (isSet f "junit") (asStr (flag f "resultsdir")) (Some i) false with
   | inl e =>
       outcome (Report.doReport w f s) = inl e /\
       existsb isBuild (events (Report.doReport w f s)) = false
   | inr _ =>
       In (EvBuild (reportBuildArgs w)) (events (Report.doReport w f s)) /\
       match build w (reportBuildArgs w) with
       | inl e =>
           outcome (Report.doReport w f s) = inl e /\
           existsb isPoll (events (Report.doReport w f s)) = false /\
           existsb isReportFetch (events (Report.doReport w f s)) = false
       | inr cs =>
           componentSet (final (Report.doReport w f s)) = Some cs /\
           existsb isPoll (events (Report.doReport w f s)) = true
       end
   end).
Proof.
  intros Hi. unfold_report. unfold reportBuildArgs. rewrite Hi.
  split; intros Hv; rewrite Hv.
  - settle; try solve [clash]; scan; split; reflexivity.
  - settle; try solve [clash]; scan;
      try (split; reflexivity);
      (split; [repeat (rewrite in_app_iff; cbn); tauto|]);
      repeat apply conj; reflexivity.
Qed.

Lemma report_builds_only_when_verbose_witness :
  resolveDeployId calmWorld (asStr (flag reportVerbose "jobid"))
    = inr "0Af000000000009" /\
  isSet reportVerbose "verbose" = true /\
  In (EvBuild (reportBuildArgs calmWorld))
    (events (Report.doReport calmWorld reportVerbose newCommand)).
Proof.
  split; [vm_compute; reflexivity|].
  split; [vm_compute; reflexivity|].
  destruct (report_builds_only_when_verbose calmWorld reportVerbose newCommand
              "0Af000000000009") as (_ & Hv); [vm_compute; reflexivity|].
  specialize (Hv ltac:(vm_compute; reflexivity)).
  cbn in Hv. destruct Hv as (Hin & _). exact Hin.
Defined.

(** X13. When the status poll of [doReport] returns, its answer is
    dropped: the status is fetched once more, exactly once, and the
    stored DeployResult is the fetched one; a fetch that throws makes
    [doReport] fail and leaves the stored result as it was. *)
Theorem report_hands_back_fetched_status (w : World) (f : Flags) (s : State)
    (i : string) (polled : DeployResult) :
  resolveDeployId w (asStr (flag f "jobid")) = inr i ->
  pollStatus w i (waitQuantity w f) = inr polled ->
  existsb isPoll (events (Report.doReport w f s)) = true ->
  countOf isReportFetch (events (Report.doReport w f s)) = 1%nat /\
  match report w i with
  | inr fetched =>
      outcome (Report.doReport w f s) = inr tt /\
      deployResult (final (Report.doReport w f s)) = Some fetched
  | inl e =>
      outcome (Report.doReport w f s) = inl e /\
      deployResult (final (Report.doReport w f s)) = deployResult s
  end.
Proof.
  intros Hi Hp. unfold_report. rewrite Hi.
  settle; try solve [clash]; scan; tally; intros H; try discriminate;
    repeat apply conj; reflexivity.
Qed.

Lemma report_hands_back_fetched_status_witness :
  pollStatus failedWorld "0Af000000000009" (waitQuantity failedWorld reportJob)
    = inr (okResult Failed) /\
  countOf isReportFetch
    (events (Report.doReport failedWorld reportJob newCommand)) = 1%nat.
Proof.
  split; [vm_compute; reflexivity|].
  destruct (report_hands_back_fetched_status failedWorld reportJob newCommand
              "0Af000000000009" (okResult Failed)) as (Hc & _);
    [vm_compute; reflexivity.. |].
  exact Hc.
Defined.

(** X14. The report command polls, with the wait of the flags, the deploy
    it created for the id it resolved, and the status it fetches is that
    of the same id and no other. *)
Theorem report_polls_the_resolved_id (w : World) (f : Flags) (s : State)
    (i : string) (q : N) :
  In (EvPollStatus i q) (events (Report.run w f s)) ->
  resolveDeployId w (asStr (flag f "jobid")) = inr i /\
  q = waitQuantity w f /\
  In (EvCreateDeploy i) (events (Report.run w f s)) /\
  In (EvReport i) (events (Report.run w f s)) /\
  forall j, In (EvReport j) (events (Report.run w f s)) -> j = i.
Proof.
  unfold_report.
  settle; try solve [clash]; intros H; in_log;
    inversion H; subst;
    (split; [reflexivity|]); (split; [reflexivity|]);
    (split; [repeat (rewrite in_app_iff; cbn); tauto|]);
    (split; [repeat (rewrite in_app_iff; cbn); tauto|]);
    intros j Hj; in_log; now inversion Hj.
Qed.

Lemma report_polls_the_resolved_id_witness :
  In (EvPollStatus "0Af000000000009" 1)
    (events (Report.run calmWorld reportJob newCommand)) /\
  In (EvReport "0Af000000000009")
    (events (Report.run calmWorld reportJob newCommand)).
Proof.
  assert (H : In (EvPollStatus "0Af000000000009" 1)
                (events (Report.run calmWorld reportJob newCommand)))
    by (vm_compute; auto 10).
  split; [exact H|].
  destruct (report_polls_the_resolved_id calmWorld reportJob newCommand _ _ H)
    as (_ & _ & _ & Hr & _).
  exact Hr.
Defined.

(** X15. The report command never submits or replays a deploy, never
    touches the tracking stores or the lifecycle bus, and leaves the
    stored async status and the exit code alone. *)
Theorem report_is_read_only (w : World) (f : Flags) (s : State) :
  existsb isSubmit (events (Report.run w f s)) = false /\
  existsb isReplay (events (Report.run w f s)) = false /\
  existsb isTrackingCall (events (Report.run w f s)) = false /\
  existsb isLifecycle (events (Report.run w f s)) = false /\
  asyncDeployResult (final (Report.run w f s)) = asyncDeployResult s /\
  exitCode (final (Report.run w f s)) = exitCode s.
Proof.
  unfold_report.
  settle; try solve [clash]; scan; repeat apply conj; reflexivity.
Qed.

(** ** Exit status of the report command *)

(** A [doReport] that completes has fetched the status of the deploy id
    it resolved. *)
Lemma doReport_fetches (w : World) (f : Flags) (s : State) :
  outcome (Report.doReport w f s) = inr tt ->
  exists i dr,
    resolveDeployId w (asStr (flag f "jobid")) = inr i /\
    report w i = inr dr /\
    deployResult (final (Report.doReport w f s)) = Some dr.
Proof.
  unfold Report.doReport, getBool.
  settle; intros H; try discriminate; do 2 eexists;
    (split; [reflexivity|]); (split; [eassumption | reflexivity]).
Qed.

(** [doReport] leaves the exit code alone. *)
Lemma doReport_exit_code (w : World) (f : Flags) (s : State) :
  exitCode (final (Report.doReport w f s)) = exitCode s.
Proof.
  unfold Report.doReport, getBool. settle; reflexivity.
Qed.

(** The report command accepts no wait of less than a minute. *)
Lemma report_wait_minimum (w : World) (f : Flags) (q : N) :
  validateFlags w f Report.flagsConfig = None ->
  flag f "wait" = Some (VMinutes q) ->
  (1 <= q)%N.
Proof.
  intros Hv Hq. cbn in Hv. unfold checkFlag at 1 in Hv. cbn in Hv.
  unfold provided in Hv. rewrite Hq in Hv. cbn in Hv.
  destruct (q <? 1)%N eqn:E; [discriminate|].
  now apply N.ltb_ge.
Qed.

(** X22. [resolveSuccess] is a no-op, so the report command never settles
    an exit code from the status it fetched.  An invocation exits with
    status 0 exactly when its flags are accepted, [doReport] completes,
    the creation of the requested reports does not throw and, in human
    output mode, the display of the result does not throw; it then hands
    back the DeployResult that the status fetch of the resolved id
    answered.  A wait of less than a minute is rejected with the flags. *)
Theorem report_exit_status (w : World) (f : Flags) :
  let fetched := final (Report.doReport w f newCommand) in
  (exitStatus (Report.invoke w f) = 0%Z <->
   validateFlags w f Report.flagsConfig = None /\
   outcome (Report.doReport w f newCommand) = inr tt /\
   createReportsOutcome w (deployResult fetched) (resultsDir fetched) = None /\
   (isJsonOutput w = true \/
    displayOutcome w (DeployReportCommandResult (deployResult fetched))
      = None)) /\
  (exitStatus (Report.invoke w f) = 0%Z ->
   exists i dr,
     resolveDeployId w (asStr (flag f "jobid")) = inr i /\
     report w i = inr dr /\
     outcome (Report.invoke w f)
       = inr (DeployReportCommandResult (Some dr))) /\
  (forall q : N,
     flag f "wait" = Some (VMinutes q) -> (q < 1)%N ->
     exitStatus (Report.invoke w f) = 1%Z).
Proof.
  intros fetched. subst fetched.
  pose proof (doReport_fetches w f newCommand) as Hf.
  pose proof (doReport_exit_code w f newCommand) as Hx.
  pose proof (report_wait_minimum w f) as Hm.
  unfold Report.invoke, exitStatus.
  destruct (validateFlags w f Report.flagsConfig) as [e|] eqn:Hv.
  - split; [split; [discriminate | intros [? _]; discriminate]|].
    split; [discriminate | reflexivity].
  - assert (Hq : forall q : N,
              flag f "wait" = Some (VMinutes q) -> (q < 1)%N -> False).
    { intros q H1 H2. specialize (Hm q eq_refl H1). lia. }
    unfold Report.run, Report.formatResult, Report.resolveSuccess.
    unfold_cmd.
    destruct (Report.doReport w f newCommand) as [[l s'] [e|[]]] eqn:Hd;
      cbn in *.
    + split; [split; [discriminate | intros (_ & ? & _); discriminate]|].
      split; [discriminate | reflexivity].
    + destruct (Hf eq_refl) as (i & dr & Hi & Hr & Hdr).
      unfold getJson. rewrite Hdr.
      destruct (createReportsOutcome w (Some dr) (resultsDir s')) as [e|];
        cbn.
      { split; [split; [discriminate | intros (_ & _ & ? & _); discriminate]|].
        split; [discriminate | intros q H1 H2; destruct (Hq q H1 H2)]. }
      destruct (isJsonOutput w); cbn.
      { rewrite Hx, ?Hdr. cbn.
        split; [split; [intros _; repeat apply conj; auto | reflexivity]|].
        split; [intros _; exists i, dr; auto
               | intros q H1 H2; destruct (Hq q H1 H2)]. }
      rewrite Hdr.
      destruct (displayOutcome w (DeployReportCommandResult (Some dr)))
        as [e|]; cbn.
      { split; [split; [discriminate|]|].
        - intros (_ & _ & _ & [?|?]); discriminate.
        - split; [discriminate | intros q H1 H2; destruct (Hq q H1 H2)]. }
      rewrite Hx, ?Hdr. cbn.
      split; [split; [intros _; repeat apply conj; auto | reflexivity]|].
      split; [intros _; exists i, dr; auto
             | intros q H1 H2; destruct (Hq q H1 H2)].
Qed.

Lemma report_exit_status_witness :
  exitStatus (Report.invoke jsonFailedWorld reportJob) = 0%Z /\
  exists i dr,
    resolveDeployId jsonFailedWorld (asStr (flag reportJob "jobid")) = inr i /\
    report jsonFailedWorld i = inr dr /\
    outcome (Report.invoke jsonFailedWorld reportJob)
      = inr (DeployReportCommandResult (Some dr)).
Proof.
  split; [vm_compute; reflexivity|].
  destruct (report_exit_status jsonFailedWorld reportJob)
    as (_ & H & _).
  apply H. vm_compute; reflexivity.
Defined.

(** ** The catch clause of the report command *)

(** X16. The catch clause of [doReport] takes a thrown value for a client
    timeout exactly when it is an Error whose message holds the wording
    "The client has timed out" at any position. *)
Theorem client_timeout_matches_anywhere (e : Err) :
  Report.clientTimedOut e = true <->
  isError e = true /\
  exists pre post,
    errMessage e = pre +:+ "The client has timed out" +:+ post.
Proof.
  unfold Report.clientTimedOut.
  rewrite andb_true_iff, includes_spec. reflexivity.
Qed.

(** ** Formatting the result *)

Lemma ends_with_display_one (k : FormatterKind) :
  exists pre k', [EvDisplay k] = pre ++ [EvDisplay k'].
Proof. now exists [], k. Qed.

Lemma ends_with_display_cons (ev : Event) (l : list Event) :
  (exists pre k, l = pre ++ [EvDisplay k]) ->
  exists pre k, ev :: l = pre ++ [EvDisplay k].
Proof. intros (pre & k & ->). now exists (ev :: pre), k. Qed.

Lemma ends_with_display_app (l l' : list Event) :
  (exists pre k, l' = pre ++ [EvDisplay k]) ->
  exists pre k, l ++ l' = pre ++ [EvDisplay k].
Proof.
  intros (pre & k & ->). exists (l ++ pre), k. now rewrite app_assoc.
Qed.

(** The log ends with a formatter's display. *)
Ltac ends_with_display :=
  repeat first [ apply ends_with_display_one
               | apply ends_with_display_cons
               | apply ends_with_display_app ].

(** X17. In human output mode each command calls a formatter's display
    at most once, as its last call.  A run that returns has called it
    exactly once, on the result it hands back, and the display did not
    throw; after a display, the outcome of the run is that of the display:
    its error, or the result displayed. *)
Theorem display_once_on_return (w : World) (f : Flags) (s : State) :
  isJsonOutput w = false ->
  ((countOf isFormatterDisplay (events (Deploy.run w f s)) <= 1)%nat /\
   (forall r : CommandResult,
      outcome (Deploy.run w f s) = inr r ->
      countOf isFormatterDisplay (events (Deploy.run w f s)) = 1%nat /\
      displayOutcome w r = None) /\
   (countOf isFormatterDisplay (events (Deploy.run w f s)) = 1%nat ->
    let r := getJson
               (if isAsync (final (Deploy.run w f s))
                then DeployAsyncResultFormatter else DeployResultFormatter)
               (final (Deploy.run w f s)) in
    (exists pre k, events (Deploy.run w f s) = pre ++ [EvDisplay k]) /\
    outcome (Deploy.run w f s) =
      match displayOutcome w r with
      | Some e => inl e
      | None => inr r
      end)) /\
  ((countOf isFormatterDisplay (events (Report.run w f s)) <= 1)%nat /\
   (forall r : CommandResult,
      outcome (Report.run w f s) = inr r ->
      countOf isFormatterDisplay (events (Report.run w f s)) = 1%nat /\
      displayOutcome w r = None) /\
   (countOf isFormatterDisplay (events (Report.run w f s)) = 1%nat ->
    let r := getJson DeployReportResultFormatter (final (Report.run w f s)) in
    (exists pre k, events (Report.run w f s) = pre ++ [EvDisplay k]) /\
    outcome (Report.run w f s) =
      match displayOutcome w r with
      | Some e => inl e
      | None => inr r
      end)).
Proof.
  intros Hj. unfold_deploy. unfold_report. rewrite Hj. split.
  - settle; try solve [clash]; tally;
      (split; [lia|]);
      (split; [intros r Hr;
               first [ discriminate
                     | inversion Hr; subst; split;
                       [reflexivity | assumption] ]|]);
      intros Hc; try discriminate; cbn;
      repeat match goal with
             | H : displayOutcome _ _ = _ |- _ => rewrite H
             end;
      (split; [ends_with_display | reflexivity]).
  - settle; try solve [clash]; tally;
      (split; [lia|]);
      (split; [intros r Hr;
               first [ discriminate
                     | inversion Hr; subst; split;
                       [reflexivity | assumption] ]|]);
      intros Hc; try discriminate; cbn;
      repeat match goal with
             | H : displayOutcome _ _ = _ |- _ => rewrite H
             end;
      (split; [ends_with_display | reflexivity]).
Qed.

Lemma display_once_on_return_witness :
  isJsonOutput failedWorld = false /\
  countOf isFormatterDisplay
    (events (Deploy.run failedWorld metadataSync newCommand)) = 1%nat /\
  outcome (Deploy.run failedWorld metadataSync newCommand)
    = inl deployFailed /\
  forall r : CommandResult,
    outcome (Deploy.run calmWorld metadataSync newCommand) = inr r ->
    countOf isFormatterDisplay
      (events (Deploy.run calmWorld metadataSync newCommand)) = 1%nat.
Proof.
  split; [reflexivity|].
  destruct (display_once_on_return failedWorld metadataSync newCommand
              eq_refl) as ((_ & _ & Hf) & _).
  assert (Hc : countOf isFormatterDisplay
                 (events (Deploy.run failedWorld metadataSync newCommand))
               = 1%nat) by (vm_compute; reflexivity).
  split; [exact Hc|].
  split; [rewrite (proj2 (Hf Hc)); vm_compute; reflexivity|].
  intros r Hr.
  destruct (display_once_on_return calmWorld metadataSync newCommand
              eq_refl) as ((_ & Hret & _) & _).
  exact (proj1 (Hret r Hr)).
Defined.

(** X18. Progress is rendered once for each status poll in human output
    mode, and never in JSON output mode, by both commands. *)
Theorem progress_goes_with_polling (w : World) (f : Flags) (s : State) :
  countOf isProgress (events (Deploy.run w f s))
    = (if isJsonOutput w then 0
       else countOf isPoll (events (Deploy.run w f s)))%nat /\
  countOf isProgress (events (Report.run w f s))
    = (if isJsonOutput w then 0
       else countOf isPoll (events (Report.run w f s)))%nat.
Proof.
  unfold_deploy. unfold_report. unfold progress. split.
  - settle; try solve [clash]; tally; repeat (step; cbn); reflexivity.
  - settle; try solve [clash]; tally; repeat (step; cbn); reflexivity.
Qed.

(** X19. Both commands resolve the results directory with [noThrow]
    false.  The report command does so from the deploy id it resolved: a
    resolution that throws is fatal before the deploy is created or
    polled, and what a resolution answers, a directory or none, stays
    assigned whatever fails later.  A deploy run that returns has
    assigned what the resolution answered for the id of its DeployResult,
    or for no id when it has none. *)
Theorem results_directory (w : World) (f : Flags) (s : State) :
  (forall i,
     resolveDeployId w (asStr (flag f "jobid")) = inr i ->
     match resolveOutputDir w (asArr (flag f "coverageformatters"))
             (isSet f "junit") (asStr (flag f "resultsdir")) (Some i)
             false with
     | inl e =>
         Report.run w f s
         = ([EvResolveDeployId (asStr (flag f "jobid"))], s, inl e)
     | inr dir => resultsDir (final (Report.run w f s)) = dir
     end) /\
  (forall r,
     outcome (Deploy.run w f s) = inr r ->
     resolveOutputDir w (asArr (flag f "coverageformatters"))
       (isSet f "junit") (asStr (flag f "resultsdir"))
       (responseId <$> deployResult (final (Deploy.run w f s))) false
     = inr (resultsDir (final (Deploy.run w f s)))).
Proof.
  unfold_deploy. unfold_report. split.
  - intros i Hi. rewrite Hi. settle; try solve [clash]; reflexivity.
  - intros r. settle; try solve [clash]; intros H; try discriminate;
      cbn; assumption.
Qed.

Lemma results_directory_witness :
  resolveDeployId calmWorld (asStr (flag reportJunit "jobid"))
    = inr "0Af000000000009" /\
  resultsDir (final (Report.run calmWorld reportJunit newCommand))
    = Some "0Af000000000009" /\
  outcome (Deploy.run calmWorld metadataSyncJunit newCommand)
    = inr (DeployCommandResult (Some (okResult Succeeded))) /\
  sampleOutputDir None true None (Some "0Af000000000002") false
    = inr (resultsDir
             (final (Deploy.run calmWorld metadataSyncJunit newCommand))).
Proof.
  split; [vm_compute; reflexivity|].
  destruct (results_directory calmWorld reportJunit newCommand) as (Hr & _).
  specialize (Hr "0Af000000000009" ltac:(vm_compute; reflexivity)).
  split; [exact Hr|].
  assert (Ho : outcome (Deploy.run calmWorld metadataSyncJunit newCommand)
               = inr (DeployCommandResult (Some (okResult Succeeded))))
    by (vm_compute; reflexivity).
  split; [exact Ho|].
  destruct (results_directory calmWorld metadataSyncJunit newCommand)
    as (_ & Hd).
  exact (Hd _ Ho).
Defined.

(** What an accepted flag definition guarantees about the flags it
    names. *)
Lemma accepted_relations (w : World) (f : Flags) (d : FlagDef) :
  checkFlag w f d = None ->
  provided f (flagName d) = true ->
  (forall also, In also (dependsOn d) -> provided f also = true) /\
  (forall also, In also (exclusive d) -> provided f also = false) /\
  (forall also, In also (exactlyOne d) -> also <> flagName d ->
                provided f also = false).
Proof.
  unfold checkFlag. intros H Hp. rewrite Hp in H.
  destruct (belowMinimum (minimum d) (flag f (flagName d)));
    [discriminate|].
  destruct (existsb (fun also => negb (provided f also)) (dependsOn d))
    eqn:Hd; [discriminate|].
  destruct (existsb (provided f) (exclusive d)) eqn:Hx; [discriminate|].
  destruct (existsb
              (fun also =>
                 negb (String.eqb also (flagName d)) && provided f also)
              (exactlyOne d)) eqn:Ho; [discriminate|].
  clear H. split; [|split]; intros also Hin.
  - destruct (provided f also) eqn:E; [reflexivity|].
    assert (existsb (fun also => negb (provided f also)) (dependsOn d) = true)
      by (apply existsb_exists; exists also; now rewrite E).
    congruence.
  - destruct (provided f also) eqn:E; [|reflexivity].
    assert (existsb (provided f) (exclusive d) = true)
      by (apply existsb_exists; now exists also).
    congruence.
  - intros Hne. destruct (provided f also) eqn:E; [|reflexivity].
    assert (existsb
              (fun also =>
                 negb (String.eqb also (flagName d)) && provided f also)
              (exactlyOne d) = true).
    { apply existsb_exists. exists also. split; [exact Hin|].
      rewrite E, andb_true_r. apply negb_true_iff.
      now apply String.eqb_neq. }
    congruence.
Qed.

Ltac find_flag :=
  unfold Deploy.flagsConfig, Report.flagsConfig, plainFlag;
  repeat first [left; reflexivity | right].

(** ** Relations between the flags of the deploy command *)

(** X20. In an accepted invocation, forceoverwrite comes with tracksource
    and hence without checkonly and validateddeployrequestid;
    purgeondelete and the two destructive-changes flags come with
    manifest and hence with no other input mode; and
    validateddeployrequestid comes without checkonly, testlevel, runtests
    and tracksource. *)
Theorem deploy_flag_dependencies (w : World) (f : Flags) :
  validateFlags w f Deploy.flagsConfig = None ->
  (provided f "forceoverwrite" = true ->
   provided f "tracksource" = true /\
   provided f "checkonly" = false /\
   provided f "validateddeployrequestid" = false) /\
  (provided f "purgeondelete" = true \/
   provided f "predestructivechanges" = true \/
   provided f "postdestructivechanges" = true ->
   provided f "manifest" = true /\
   provided f "metadata" = false /\
   provided f "sourcepath" = false /\
   provided f "validateddeployrequestid" = false) /\
  (provided f "validateddeployrequestid" = true ->
   provided f "checkonly" = false /\
   provided f "testlevel" = false /\
   provided f "runtests" = false /\
   provided f "tracksource" = false).
Proof.
  intros Hv. apply validateFlags_None in Hv.
  rewrite List.Forall_forall in Hv.
  assert (Hrel : forall d,
            In d Deploy.flagsConfig -> provided f (flagName d) = true ->
            (forall also, In also (dependsOn d) -> provided f also = true) /\
            (forall also, In also (exclusive d) -> provided f also = false) /\
            (forall also, In also (exactlyOne d) -> also <> flagName d ->
                          provided f also = false)).
  { intros d Hin. apply accepted_relations with (w := w). now apply Hv. }
  assert (Htrack : provided f "tracksource" = true ->
                   provided f "checkonly" = false /\
                   provided f "validateddeployrequestid" = false).
  { intros H.
    destruct (Hrel {| flagName := "tracksource"; exactlyOne := [];
                      exclusive := ["checkonly"; "validateddeployrequestid"];
                      dependsOn := []; validated := false; minimum := None |}
                ltac:(find_flag) H) as (_ & Hx & _).
    split; apply Hx; cbn; auto. }
  assert (Hman : provided f "manifest" = true ->
                 provided f "metadata" = false /\
                 provided f "sourcepath" = false /\
                 provided f "validateddeployrequestid" = false).
  { intros H.
    destruct (Hrel {| flagName := "manifest"; exactlyOne := Deploy.xorFlags;
                      exclusive := []; dependsOn := []; validated := false;
                      minimum := None |}
                ltac:(find_flag) H) as (_ & _ & Ho).
    repeat apply conj; apply Ho; cbn; auto; discriminate. }
  split; [|split].
  - intros H.
    destruct (Hrel {| flagName := "forceoverwrite"; exactlyOne := [];
                      exclusive := []; dependsOn := ["tracksource"];
                      validated := false; minimum := None |}
                ltac:(find_flag) H) as (Hd & _ & _).
    assert (Ht : provided f "tracksource" = true) by (apply Hd; cbn; auto).
    split; [exact Ht | now apply Htrack].
  - intros H.
    assert (Hm : provided f "manifest" = true).
    { destruct H as [H|[H|H]].
      + destruct (Hrel {| flagName := "purgeondelete"; exactlyOne := [];
                          exclusive := []; dependsOn := ["manifest"];
                          validated := false; minimum := None |}
                    ltac:(find_flag) H) as (Hd & _ & _).
        apply Hd; cbn; auto.
      + destruct (Hrel {| flagName := "predestructivechanges";
                          exactlyOne := []; exclusive := [];
                          dependsOn := ["manifest"]; validated := false;
                          minimum := None |}
                    ltac:(find_flag) H) as (Hd & _ & _).
        apply Hd; cbn; auto.
      + destruct (Hrel {| flagName := "postdestructivechanges";
                          exactlyOne := []; exclusive := [];
                          dependsOn := ["manifest"]; validated := false;
                          minimum := None |}
                    ltac:(find_flag) H) as (Hd & _ & _).
        apply Hd; cbn; auto. }
    split; [exact Hm | now apply Hman].
  - intros H.
    destruct (Hrel {| flagName := "validateddeployrequestid";
                      exactlyOne := Deploy.xorFlags;
                      exclusive := ["checkonly"; "testlevel"; "runtests";
                                    "tracksource"];
                      dependsOn := []; validated := true; minimum := None |}
                ltac:(find_flag) H) as (_ & Hx & _).
    repeat apply conj; apply Hx; cbn; auto 6.
Qed.

Lemma deploy_flag_dependencies_witness :
  validateFlags calmWorld manifestForced Deploy.flagsConfig = None /\
  provided manifestForced "forceoverwrite" = true /\
  provided manifestForced "tracksource" = true /\
  provided manifestForced "checkonly" = false /\
  provided manifestForced "validateddeployrequestid" = false.
Proof.
  split; [vm_compute; reflexivity|].
  split; [vm_compute; reflexivity|].
  apply (proj1 (deploy_flag_dependencies calmWorld manifestForced
                  ltac:(vm_compute; reflexivity))).
  vm_compute; reflexivity.
Defined.

(** An accepted flag that is validated holds a valid deploy id. *)
Lemma accepted_validated (w : World) (f : Flags) (d : FlagDef) :
  checkFlag w f d = None ->
  provided f (flagName d) = true ->
  validated d = true ->
  exists v, asStr (flag f (flagName d)) = Some v /\ isValidDeployId w v = true.
Proof.
  unfold checkFlag. intros H Hp Hv. rewrite Hp, Hv in H.
  destruct (belowMinimum (minimum d) (flag f (flagName d)));
    [discriminate|].
  destruct (existsb (fun also => negb (provided f also)) (dependsOn d));
    [discriminate|].
  destruct (existsb (provided f) (exclusive d)); [discriminate|].
  destruct (existsb
              (fun also =>
                 negb (String.eqb also (flagName d)) && provided f also)
              (exactlyOne d)); [discriminate|].
  destruct (asStr (flag f (flagName d))) as [v|]; cbn in H.
  - exists v. split; [reflexivity|].
    destruct (isValidDeployId w v); [reflexivity | discriminate].
  - discriminate.
Qed.

(** X21. In an accepted invocation with validateddeployrequestid set, the
    flag holds a deploy id that passed [isValidDeployId], and the replay
    of that very id is the first call of the run after the warning about
    reports, if any: no tracking setup precedes it. *)
Theorem replay_uses_the_validated_id (w : World) (f : Flags) :
  validateFlags w f Deploy.flagsConfig = None ->
  isSet f "validateddeployrequestid" = true ->
  exists v rest,
    flag f "validateddeployrequestid" = Some (VStr v) /\
    isValidDeployId w v = true /\
    events (Deploy.invoke w f)
      = optional ((waitQuantity w f =? 0)%N &&
                  (isSet f "coverageformatters" || isSet f "junit"))
          (EvWarn "asyncCoverageJunitWarning") ++
        EvDeployRecentValidation v :: rest.
Proof.
  intros Hv Hs.
  assert (Hp : provided f "validateddeployrequestid" = true)
    by now apply isSet_provided.
  pose proof Hv as Ha. apply validateFlags_None in Ha.
  rewrite List.Forall_forall in Ha.
  assert (Hd : checkFlag w f
                 {| flagName := "validateddeployrequestid";
                    exactlyOne := Deploy.xorFlags;
                    exclusive := ["checkonly"; "testlevel"; "runtests";
                                  "tracksource"];
                    dependsOn := []; validated := true;
                    minimum := None |} = None)
    by (apply Ha; find_flag).
  destruct (accepted_validated _ _ _ Hd Hp eq_refl) as (v & Hstr & Hvalid).
  destruct (accepted_relations _ _ _ Hd Hp) as (_ & Hx & _).
  assert (Ht : isSet f "tracksource" = false).
  { apply not_provided_not_set. apply Hx. cbn. auto 6. }
  cbn in Hstr.
  assert (Hf : flag f "validateddeployrequestid" = Some (VStr v)).
  { unfold asStr in Hstr.
    destruct (flag f "validateddeployrequestid") as [[]|];
      try discriminate. now inversion Hstr. }
  exists v. unfold Deploy.invoke. rewrite Hv.
  unfold_deploy. rewrite Hs, Ht.
  assert (Hi : default "" (asStr (flag f "validateddeployrequestid")) = v)
    by now rewrite Hf.
  rewrite Hi.
  settle; eexists; (split; [exact Hf|]); (split; [exact Hvalid|]);
    rewrite <- ?app_assoc; cbn; reflexivity.
Qed.

Lemma replay_uses_the_validated_id_witness :
  validateFlags calmWorld replayAsync Deploy.flagsConfig = None /\
  exists v rest,
    flag replayAsync "validateddeployrequestid" = Some (VStr v) /\
    isValidDeployId calmWorld v = true /\
    events (Deploy.invoke calmWorld replayAsync)
      = optional ((waitQuantity calmWorld replayAsync =? 0)%N &&
                  (isSet replayAsync "coverageformatters" ||
                   isSet replayAsync "junit"))
          (EvWarn "asyncCoverageJunitWarning") ++
        EvDeployRecentValidation v :: rest.
Proof.
  split; [vm_compute; reflexivity|].
  apply replay_uses_the_validated_id; vm_compute; reflexivity.
Defined.

